(** * NooDS interpreter core: banked registers, pipeline refill, exception
      entry, interrupt delivery and the dual-CPU drive loop

    A shallow embedding of [src/interpreter.cpp].  Unsigned machine integers
    are values of [Z]; additions and subtractions carry their wrap-around
    explicitly, bit operations are those of [Z].  The register file is kept
    the way the source keeps it: an array of pointers ([registers]) into
    banked backing cells, and an optional pointer ([spsr]) to the saved
    status register of the current mode. *)

From Stdlib Require Import ZArith List Bool Lia.
Import ListNotations.
Local Open Scope Z_scope.

(** ** Machine integers *)

Module Bits.

(** [BIT(i)] of the source's common header: [1 << i]. *)
Definition BIT (i : Z) : Z := Z.shiftl 1 i.

(** Conversion to an unsigned integer of [w] bits. *)
Definition wrap (w x : Z) : Z := x mod 2 ^ w.

Definition u32 (x : Z) : Z := wrap 32 x.

(** C truth value of an integer used as a condition. *)
Definition truthy (x : Z) : bool := negb (x =? 0).

End Bits.
Export Bits.

(** ** Storage cells

    Every banked register and every saved status register is one cell; a
    constructor is the address of the source's array element or member of
    the same name. *)

Inductive Cell : Type :=
| registersUsr (i : nat)
| registersFiq (i : nat)
| registersIrq (i : nat)
| registersSvc (i : nat)
| registersAbt (i : nat)
| registersUnd (i : nat)
| spsrFiq
| spsrIrq
| spsrSvc
| spsrAbt
| spsrUnd.

Definition Cell_eqb (a b : Cell) : bool :=
  match a, b with
  | registersUsr i, registersUsr j => Nat.eqb i j
  | registersFiq i, registersFiq j => Nat.eqb i j
  | registersIrq i, registersIrq j => Nat.eqb i j
  | registersSvc i, registersSvc j => Nat.eqb i j
  | registersAbt i, registersAbt j => Nat.eqb i j
  | registersUnd i, registersUnd j => Nat.eqb i j
  | spsrFiq, spsrFiq => true
  | spsrIrq, spsrIrq => true
  | spsrSvc, spsrSvc => true
  | spsrAbt, spsrAbt => true
  | spsrUnd, spsrUnd => true
  | _, _ => false
  end.

(** ** Scheduler tasks and log lines *)

Inductive TaskId : Type :=
| interruptTask (cpu : bool)      (* the [interruptTask] member of one CPU *)
| foreignTask (n : nat).          (* a task owned by another component *)

(** [Task(&f, cycles)]: the callable and the cycle count given with it. *)
Record Task : Type := mkTask { task : TaskId; task_cycles : Z }.

Inductive LogMsg : Type :=
| UnknownMode (cpu : bool) (mode : Z)
| UnknownArm (cpu : bool) (opcode : Z)
| UnknownThumb (cpu : bool) (opcode : Z).

(** ** CPU state ([class Interpreter])

    [cpu] is [false] for the ARM9 (id 0) and [true] for the ARM7 (id 1).
    [bios] tells whether the HLE BIOS pointer is set. *)

Record Interpreter : Type := mkInterpreter {
  cpu : bool;
  bios : bool;
  registers : nat -> Cell;
  cells : Cell -> Z;
  cpsr : Z;
  spsr : option Cell;
  pipeline : Z * Z;
  halted : Z;
  cycles : Z;
  ime : Z;
  ie : Z;
  irf : Z;
  postFlg : Z
}.

Definition set_registers (x : nat -> Cell) (s : Interpreter) : Interpreter :=
  mkInterpreter (cpu s) (bios s) x (cells s) (cpsr s) (spsr s) (pipeline s)
    (halted s) (cycles s) (ime s) (ie s) (irf s) (postFlg s).
Definition set_cells (x : Cell -> Z) (s : Interpreter) : Interpreter :=
  mkInterpreter (cpu s) (bios s) (registers s) x (cpsr s) (spsr s) (pipeline s)
    (halted s) (cycles s) (ime s) (ie s) (irf s) (postFlg s).
Definition set_cpsr (x : Z) (s : Interpreter) : Interpreter :=
  mkInterpreter (cpu s) (bios s) (registers s) (cells s) x (spsr s) (pipeline s)
    (halted s) (cycles s) (ime s) (ie s) (irf s) (postFlg s).
Definition set_spsr (x : option Cell) (s : Interpreter) : Interpreter :=
  mkInterpreter (cpu s) (bios s) (registers s) (cells s) (cpsr s) x (pipeline s)
    (halted s) (cycles s) (ime s) (ie s) (irf s) (postFlg s).
Definition set_pipeline (x : Z * Z) (s : Interpreter) : Interpreter :=
  mkInterpreter (cpu s) (bios s) (registers s) (cells s) (cpsr s) (spsr s) x
    (halted s) (cycles s) (ime s) (ie s) (irf s) (postFlg s).
Definition set_halted (x : Z) (s : Interpreter) : Interpreter :=
  mkInterpreter (cpu s) (bios s) (registers s) (cells s) (cpsr s) (spsr s)
    (pipeline s) x (cycles s) (ime s) (ie s) (irf s) (postFlg s).
Definition set_cycles (x : Z) (s : Interpreter) : Interpreter :=
  mkInterpreter (cpu s) (bios s) (registers s) (cells s) (cpsr s) (spsr s)
    (pipeline s) (halted s) x (ime s) (ie s) (irf s) (postFlg s).
Definition set_ime (x : Z) (s : Interpreter) : Interpreter :=
  mkInterpreter (cpu s) (bios s) (registers s) (cells s) (cpsr s) (spsr s)
    (pipeline s) (halted s) (cycles s) x (ie s) (irf s) (postFlg s).
Definition set_ie (x : Z) (s : Interpreter) : Interpreter :=
  mkInterpreter (cpu s) (bios s) (registers s) (cells s) (cpsr s) (spsr s)
    (pipeline s) (halted s) (cycles s) (ime s) x (irf s) (postFlg s).
Definition set_irf (x : Z) (s : Interpreter) : Interpreter :=
  mkInterpreter (cpu s) (bios s) (registers s) (cells s) (cpsr s) (spsr s)
    (pipeline s) (halted s) (cycles s) (ime s) (ie s) x (postFlg s).
Definition set_postFlg (x : Z) (s : Interpreter) : Interpreter :=
  mkInterpreter (cpu s) (bios s) (registers s) (cells s) (cpsr s) (spsr s)
    (pipeline s) (halted s) (cycles s) (ime s) (ie s) (irf s) x.

(** [*p = v] for a cell pointer [p]. *)
Definition store (p : Cell) (v : Z) (s : Interpreter) : Interpreter :=
  set_cells (fun q => if Cell_eqb p q then v else cells s q) s.

(** [registers[i] = p]. *)
Definition rebind (i : nat) (p : Cell) (s : Interpreter) : Interpreter :=
  set_registers (fun j => if Nat.eqb i j then p else registers s j) s.

(** [*registers[i]] read and written. *)
Definition readReg (i : nat) (s : Interpreter) : Z := cells s (registers s i).
Definition writeReg (i : nat) (v : Z) (s : Interpreter) : Interpreter :=
  store (registers s i) v s.

(** The object right after the constructor: every slot points into the user
    bank; the members carry their in-class initialisers. *)
Definition construct (cpu bios : bool) : Interpreter :=
  mkInterpreter cpu bios (fun i => registersUsr i) (fun _ => 0) 0 None (0, 0)
    0 0 0 0 0 0.

(** ** The shared core ([class Core], as far as the interpreter uses it)

    [world] is the state of the external collaborators (memory bus, CP15,
    DLDI back-end, HLE BIOS), which the interpreter only reaches through
    their member functions. *)

Record Core (World : Type) : Type := mkCore {
  world : World;
  gbaMode : bool;
  tasks : list Task;
  globalCycles : Z;
  log : list LogMsg
}.
Arguments mkCore {World}.
Arguments world {World}.
Arguments gbaMode {World}.
Arguments tasks {World}.
Arguments globalCycles {World}.
Arguments log {World}.

Definition set_world {World} (w : World) (c : Core World) : Core World :=
  mkCore w (gbaMode c) (tasks c) (globalCycles c) (log c).
Definition set_globalCycles {World} (g : Z) (c : Core World) : Core World :=
  mkCore (world c) (gbaMode c) (tasks c) g (log c).
Definition LOG {World} (m : LogMsg) (c : Core World) : Core World :=
  mkCore (world c) (gbaMode c) (tasks c) (globalCycles c) (log c ++ [m]).

(** One CPU together with the core it points to. *)
Definition St (World : Type) : Type := (Interpreter * Core World)%type.

(** ** Collaborators

    Code of the emulator that [interpreter.cpp] calls and that lives in other
    files: the memory bus, CP15, the DLDI back-end, the scheduler's insertion
    and the HLE BIOS.  A memory
    read returns the value and the bus state after the access; its first
    argument is the CPU id the access is issued with.  [DLDI_START] to
    [DLDI_STOP] are the six marker opcodes, an enumeration of the DLDI
    header. *)

Class Collaborators (World : Type) : Type := {
  memory_read16 : bool -> Z -> World -> Z * World;
  memory_read32 : bool -> Z -> World -> Z * World;
  cp15_getExceptionAddr : World -> Z;
  cp15_getDtcmAddr : World -> Z;
  core_schedule : Task -> Core World -> Core World;
  bios_execute : Z -> St World -> Z * St World;
  bios_shouldCheck : World -> bool;
  bios_checkWaitFlags : bool -> St World -> St World;
  dldi_isPatched : World -> bool;
  dldi_startup : World -> Z * World;
  dldi_isInserted : World -> Z * World;
  dldi_readSectors : bool -> Z -> Z -> Z -> World -> Z * World;
  dldi_writeSectors : bool -> Z -> Z -> Z -> World -> Z * World;
  dldi_clearStatus : World -> Z * World;
  dldi_shutdown : World -> Z * World;
  DLDI_START : Z;
  DLDI_INSERT : Z;
  DLDI_READ : Z;
  DLDI_WRITE : Z;
  DLDI_CLEAR : Z;
  DLDI_STOP : Z
}.

(** Member functions of [Interpreter] that are defined in the instruction
    files and called by the hooks of [interpreter.cpp]. *)

Class Handlers (World : Type) : Type := {
  blx : Z -> St World -> Z * St World;
  bx : Z -> St World -> Z * St World;
  ldmiaW : Z -> St World -> Z * St World;
  stmdbW : Z -> St World -> Z * St World
}.

(** ** The interpreter's operations *)

Section Operations.

Context {World : Type} {X : Collaborators World} {H : Handlers World}.

(** [ime && (ie & irf) && !(cpsr & BIT(7))] *)
Definition pending (s : Interpreter) : bool :=
  truthy (ime s) && truthy (Z.land (ie s) (irf s))
    && negb (truthy (Z.land (cpsr s) (BIT 7))).

(** [core->schedule(Task(&interruptTask, (cpu == 1 && !core->gbaMode) ? 2 : 1))] *)
Definition interruptDelay (s : Interpreter) (c : Core World) : Z :=
  if cpu s && negb (gbaMode c) then 2 else 1.

Definition scheduleInterrupt (st : St World) : St World :=
  let '(s, c) := st in
  (s, core_schedule (mkTask (interruptTask (cpu s)) (interruptDelay s c)) c).

(** [Interpreter::flushPipeline] *)
Definition flushPipeline (st : St World) : St World :=
  let '(s, c) := st in
  let r15 := registers s 15 in
  if truthy (Z.land (cpsr s) (BIT 5)) then
    (* THUMB mode *)
    let pc := u32 (Z.land (cells s r15) (Z.lnot 1) + 2) in
    let s1 := store r15 pc s in
    let '(p0, w1) := memory_read16 (cpu s1) (u32 (pc - 2)) (world c) in
    let '(p1, w2) := memory_read16 (cpu s1) pc w1 in
    (set_pipeline (p0, p1) s1, set_world w2 c)
  else
    (* ARM mode *)
    let pc := u32 (Z.land (cells s r15) (Z.lnot 3) + 4) in
    let s1 := store r15 pc s in
    let '(p0, w1) := memory_read32 (cpu s1) (u32 (pc - 4)) (world c) in
    let '(p1, w2) := memory_read32 (cpu s1) pc w1 in
    (set_pipeline (p0, p1) s1, set_world w2 c).

(** The [switch] of [Interpreter::setCpsr]: the seven assignments to
    [registers[8..14]] and the one to [spsr], case by case. *)
Definition swapBanks (value : Z) (st : St World) : St World :=
  let '(s, c) := st in
  match Z.land value 0x1F with
  | 0x10 | 0x1F => (* User, System *)
      (set_spsr None
        (rebind 14 (registersUsr 14) (rebind 13 (registersUsr 13)
        (rebind 12 (registersUsr 12) (rebind 11 (registersUsr 11)
        (rebind 10 (registersUsr 10) (rebind 9 (registersUsr 9)
        (rebind 8 (registersUsr 8) s))))))), c)
  | 0x11 => (* FIQ *)
      (set_spsr (Some spsrFiq)
        (rebind 14 (registersFiq 6) (rebind 13 (registersFiq 5)
        (rebind 12 (registersFiq 4) (rebind 11 (registersFiq 3)
        (rebind 10 (registersFiq 2) (rebind 9 (registersFiq 1)
        (rebind 8 (registersFiq 0) s))))))), c)
  | 0x12 => (* IRQ *)
      (set_spsr (Some spsrIrq)
        (rebind 14 (registersIrq 1) (rebind 13 (registersIrq 0)
        (rebind 12 (registersUsr 12) (rebind 11 (registersUsr 11)
        (rebind 10 (registersUsr 10) (rebind 9 (registersUsr 9)
        (rebind 8 (registersUsr 8) s))))))), c)
  | 0x13 => (* Supervisor *)
      (set_spsr (Some spsrSvc)
        (rebind 14 (registersSvc 1) (rebind 13 (registersSvc 0)
        (rebind 12 (registersUsr 12) (rebind 11 (registersUsr 11)
        (rebind 10 (registersUsr 10) (rebind 9 (registersUsr 9)
        (rebind 8 (registersUsr 8) s))))))), c)
  | 0x17 => (* Abort *)
      (set_spsr (Some spsrAbt)
        (rebind 14 (registersAbt 1) (rebind 13 (registersAbt 0)
        (rebind 12 (registersUsr 12) (rebind 11 (registersUsr 11)
        (rebind 10 (registersUsr 10) (rebind 9 (registersUsr 9)
        (rebind 8 (registersUsr 8) s))))))), c)
  | 0x1B => (* Undefined *)
      (set_spsr (Some spsrUnd)
        (rebind 14 (registersUnd 1) (rebind 13 (registersUnd 0)
        (rebind 12 (registersUsr 12) (rebind 11 (registersUsr 11)
        (rebind 10 (registersUsr 10) (rebind 9 (registersUsr 9)
        (rebind 8 (registersUsr 8) s))))))), c)
  | m => (s, LOG (UnknownMode (cpu s) m) c)
  end.

(** [Interpreter::setCpsr(value, save)] *)
Definition setCpsr (value : Z) (save : bool) (st : St World) : St World :=
  (* Swap banked registers if the CPU mode changed *)
  let '(s1, c1) :=
    if Z.land value 0x1F =? Z.land (cpsr (fst st)) 0x1F then st
    else swapBanks value st in
  (* Set the CPSR, saving the old value if requested *)
  let s2 :=
    match spsr s1 with
    | Some p => if save then store p (cpsr s1) s1 else s1
    | None => s1
    end in
  let s3 := set_cpsr value s2 in
  (* Trigger an interrupt if the conditions are met *)
  if pending s3 then scheduleInterrupt (s3, c1) else (s3, c1).

(** [Interpreter::init] *)
Definition init (st : St World) : St World :=
  let '(s1, c1) := setCpsr 0x000000D3 false st in
  let s2 := store (registersUsr 15)
              (if cpu s1 then 0x00000000 else 0xFFFF0000) s1 in
  let '(s3, c3) := flushPipeline (s2, c1) in
  (set_postFlg 0 (set_irf 0 (set_ie 0 (set_ime 0 s3))), c3).

(** [Interpreter::directBoot] *)
Definition directBoot (st : St World) : St World :=
  let '(s, c) := st in
  let '(entryAddr, s1, c1) :=
    if negb (cpu s) then
      (* ARM9 *)
      let '(e, w) := memory_read32 false 0x27FFE24 (world c) in
      (e,
       store (registersSvc 0) 0x03003FC0
         (store (registersIrq 0) 0x03003F80
         (store (registersUsr 13) 0x03002F7C s)),
       set_world w c)
    else
      (* ARM7 *)
      let '(e, w) := memory_read32 false 0x27FFE34 (world c) in
      (e,
       store (registersSvc 0) 0x0380FFC0
         (store (registersIrq 0) 0x0380FF80
         (store (registersUsr 13) 0x0380FD80 s)),
       set_world w c) in
  let '(s2, c2) := setCpsr 0x000000DF false (s1, c1) in
  let s3 := store (registersUsr 15) entryAddr
              (store (registersUsr 14) entryAddr
              (store (registersUsr 12) entryAddr s2)) in
  flushPipeline (s3, c2).

(** [Interpreter::resetCycles] *)
Definition resetCycles (st : St World) : St World :=
  let '(s, c) := st in
  (set_cycles (cycles s - Z.min (globalCycles c) (cycles s)) s, c).

(** [Interpreter::sendInterrupt] *)
Definition sendInterrupt (bit : Z) (st : St World) : St World :=
  let '(s, c) := st in
  (* Set the interrupt's request bit *)
  let s1 := set_irf (Z.lor (irf s) (BIT bit)) s in
  if truthy (Z.land (ie s1) (irf s1)) then
    if truthy (ime s1) && negb (truthy (Z.land (cpsr s1) (BIT 7))) then
      scheduleInterrupt (s1, c)
    else if truthy (ime s1) || cpu s1 then
      (set_halted (Z.land (halted s1) (Z.lnot (BIT 0))) s1, c)
    else (s1, c)
  else (s1, c).

(** The mode table of [Interpreter::exception]. *)
Definition modes : list Z := [0x13; 0x1B; 0x13; 0x17; 0x17; 0x13; 0x12; 0x11].

(** [Interpreter::exception].  The result is [None] where the source
    dereferences a null [spsr]. *)
Definition exception (vector : Z) (st : St World) : option (Z * St World) :=
  let '(s, c) := st in
  (* Forward the call to HLE BIOS if enabled, unless on ARM9 with the
     exception address changed *)
  if bios s && (cpu s || truthy (cp15_getExceptionAddr (world c))) then
    Some (bios_execute vector st)
  else
    let '(s1, c1) :=
      setCpsr (Z.lor (Z.lor (Z.land (cpsr s) (Z.lnot 0x3F)) (BIT 7))
                 (nth (Z.to_nat (Z.shiftr vector 2)) modes 0)) true st in
    match spsr s1 with
    | None => None
    | Some p =>
        let s2 := writeReg 14
                    (u32 (readReg 15 s1
                          + (if truthy (Z.land (cells s1 p) (BIT 5))
                             then 2 else 0))) s1 in
        let s3 := writeReg 15
                    (u32 ((if cpu s2 then 0
                           else cp15_getExceptionAddr (world c1)) + vector))
                    s2 in
        Some (3, flushPipeline (s3, c1))
    end.

(** The CPU does not hand exception entry to the HLE BIOS: no BIOS is set,
    or it is the ARM9 with the CP15 exception address at 0. *)
Definition nativeEntry (s : Interpreter) (c : Core World) : Prop :=
  bios s && (cpu s || truthy (cp15_getExceptionAddr (world c))) = false.

(** [Interpreter::interrupt], the body of the scheduled task. *)
Definition interrupt (st : St World) : option (St World) :=
  if pending (fst st) then
    match exception 0x18 st with
    | Some (_, (s1, c1)) =>
        Some (set_halted (Z.land (halted s1) (Z.lnot (BIT 0))) s1, c1)
    | None => None
    end
  else Some st.

(** [Interpreter::unkArm] and [Interpreter::unkThumb] *)
Definition unkArm (opcode : Z) (st : St World) : Z * St World :=
  let '(s, c) := st in (1, (s, LOG (UnknownArm (cpu s) opcode) c)).

Definition unkThumb (opcode : Z) (st : St World) : Z * St World :=
  let '(s, c) := st in (1, (s, LOG (UnknownThumb (cpu s) opcode) c)).

(** The register list [(13 << 16) | BIT(0) | BIT(1) | BIT(2) | BIT(3) |
    BIT(12) | BIT(14)] of the HLE interrupt frame. *)
Definition hleFrame : Z :=
  Z.lor (Z.lor (Z.lor (Z.lor (Z.lor (Z.lor (Z.shiftl 13 16) (BIT 0)) (BIT 1))
    (BIT 2)) (BIT 3)) (BIT 12)) (BIT 14).

(** [Interpreter::handleHleIrq] *)
Definition handleHleIrq (st : St World) : option (Z * St World) :=
  let '(s1, c1) :=
    setCpsr (Z.lor (Z.lor (Z.land (cpsr (fst st)) (Z.lnot 0x3F)) (BIT 7)) 0x12)
      true st in
  match spsr s1 with
  | None => None
  | Some p =>
      let s2 := writeReg 14
                  (u32 (readReg 15 s1
                        + (if truthy (Z.land (cells s1 p) (BIT 5))
                           then 2 else 0))) s1 in
      let '(_, (s3, c3)) := stmdbW hleFrame (s2, c1) in
      let s4 := writeReg 14 (if cpu s3 then 0x00000000 else 0xFFFF0000) s3 in
      let '(h, w) :=
        memory_read32 (cpu s4)
          (if cpu s4 then 0x3FFFFFC
           else u32 (cp15_getDtcmAddr (world c3) + 0x3FFC)) (world c3) in
      Some (3, flushPipeline (writeReg 15 h s4, set_world w c3))
  end.

(** [Interpreter::finishHleIrq] *)
Definition finishHleIrq (st : St World) : Z * St World :=
  let st1 :=
    if bios_shouldCheck (world (snd st))
    then bios_checkWaitFlags (cpu (fst st)) st else st in
  let '(_, (s2, c2)) := ldmiaW hleFrame st1 in
  let s3 := writeReg 15 (u32 (readReg 14 s2 - 4)) s2 in
  let st4 :=
    match spsr s3 with
    | Some p => setCpsr (cells s3 p) false (s3, c2)
    | None => (s3, c2)
    end in
  (3, flushPipeline st4).

(** The DLDI [switch] of [Interpreter::handleReserved]: the call selected
    by the opcode, its result stored in [*registers[0]]; no [default]. *)
Definition dldiCall (opcode : Z) (st : St World) : St World :=
  let '(s, c) := st in
  let ret (r : Z * World) : St World :=
    (writeReg 0 (fst r) s, set_world (snd r) c) in
  if opcode =? DLDI_START then ret (dldi_startup (world c))
  else if opcode =? DLDI_INSERT then ret (dldi_isInserted (world c))
  else if opcode =? DLDI_READ then
    ret (dldi_readSectors (cpu s) (readReg 0 s) (readReg 1 s) (readReg 2 s)
           (world c))
  else if opcode =? DLDI_WRITE then
    ret (dldi_writeSectors (cpu s) (readReg 0 s) (readReg 1 s) (readReg 2 s)
           (world c))
  else if opcode =? DLDI_CLEAR then ret (dldi_clearStatus (world c))
  else if opcode =? DLDI_STOP then ret (dldi_shutdown (world c))
  else st.

(** An opcode that is none of the six DLDI markers. *)
Definition notDldi (opcode : Z) : Prop :=
  opcode <> DLDI_START /\ opcode <> DLDI_INSERT /\ opcode <> DLDI_READ
  /\ opcode <> DLDI_WRITE /\ opcode <> DLDI_CLEAR /\ opcode <> DLDI_STOP.

(** [Interpreter::handleReserved] *)
Definition handleReserved (opcode : Z) (st : St World) : Z * St World :=
  (* The ARM9-exclusive BLX instruction uses the reserved condition code *)
  if Z.land opcode 0x0E000000 =? 0x0A000000 then blx opcode st
  (* If the special HLE BIOS opcode was jumped to, return from an HLE
     interrupt *)
  else if bios (fst st) && (opcode =? 0xFF000000) then finishHleIrq st
  (* If a DLDI function was jumped to, HLE it and return *)
  else if dldi_isPatched (world (snd st)) then bx 14 (dldiCall opcode st)
  else unkArm opcode st.

(** [Interpreter::writeIme] *)
Definition writeIme (value : Z) (st : St World) : St World :=
  let '(s, c) := st in
  let s1 := set_ime (Z.land value 0x01) s in
  if pending s1 then scheduleInterrupt (s1, c) else (s1, c).

(** [Interpreter::writeIe] *)
Definition writeIe (mask value : Z) (st : St World) : St World :=
  let '(s, c) := st in
  let mask1 :=
    Z.land mask (if negb (cpu s) then 0x003F3F7F
                 else if gbaMode c then 0x3FFF else 0x01FF3FFF) in
  let s1 := set_ie (Z.lor (Z.land (ie s) (Z.lnot mask1))
                      (Z.land value mask1)) s in
  if pending s1 then scheduleInterrupt (s1, c) else (s1, c).

(** [Interpreter::writeIrf] *)
Definition writeIrf (mask value : Z) (s : Interpreter) : Interpreter :=
  set_irf (Z.land (irf s) (Z.lnot (Z.land value mask))) s.

(** [Interpreter::writePostFlg] *)
Definition writePostFlg (value : Z) (s : Interpreter) : Interpreter :=
  let s1 := set_postFlg (Z.lor (postFlg s) (Z.land value 0x01)) s in
  if negb (cpu s1) then
    set_postFlg (Z.lor (Z.land (postFlg s1) (Z.lnot 0x02))
                   (Z.land value 0x02)) s1
  else s1.

End Operations.

(** ** The NDS drive loop ([Interpreter::runNdsFrame]) *)

Record Nds (World : Type) : Type := mkNds {
  arm9 : Interpreter;           (* core.interpreter[0] *)
  arm7 : Interpreter;           (* core.interpreter[1] *)
  core : Core World
}.
Arguments mkNds {World}.
Arguments arm9 {World}.
Arguments arm7 {World}.
Arguments core {World}.

Section DriveLoop.

Context {World : Type}.

(** Width in bits of the type of the cycle counters ([cycles] and
    [globalCycles]); their declarations are in the headers. *)
Variable W : Z.

(** [runOpcode] of the CPU chosen by the first argument.  The instruction
    handlers are defined in other files and reach the whole system through
    [core], so one opcode is an arbitrary transition of the system that
    returns its cycle cost. *)
Variable runOpcode : bool -> Nds World -> Z * Nds World.

(** [if (!arm9.halted && core.globalCycles >= arm9.cycles)
       arm9.cycles = core.globalCycles + arm9.runOpcode();]
    The sum is taken in the counters' type.  C++ does not order the read of
    [globalCycles] and the call; here the call comes first. *)
Definition stepArm9 (n : Nds World) : Nds World :=
  if negb (truthy (halted (arm9 n)))
     && (cycles (arm9 n) <=? globalCycles (core n)) then
    let '(cost, n1) := runOpcode false n in
    mkNds (set_cycles (wrap W (globalCycles (core n1) + cost)) (arm9 n1))
      (arm7 n1) (core n1)
  else n.

(** [if (!arm7.halted && core.globalCycles >= arm7.cycles)
       arm7.cycles = core.globalCycles + (arm7.runOpcode() << 1);] *)
Definition stepArm7 (n : Nds World) : Nds World :=
  if negb (truthy (halted (arm7 n)))
     && (cycles (arm7 n) <=? globalCycles (core n)) then
    let '(cost, n1) := runOpcode true n in
    mkNds (arm9 n1)
      (set_cycles (wrap W (globalCycles (core n1) + Z.shiftl cost 1)) (arm7 n1))
      (core n1)
  else n.

(** One operand of [std::min<uint32_t>]: [(arm.halted ? -1 : arm.cycles)]
    converted to [uint32_t]. *)
Definition nextStamp (i : Interpreter) : Z :=
  u32 (if truthy (halted i) then -1 else cycles i).

(** The body of the inner [while]. *)
Definition innerBody (n : Nds World) : Nds World :=
  let n1 := stepArm7 (stepArm9 n) in
  mkNds (arm9 n1) (arm7 n1)
    (set_globalCycles (Z.min (nextStamp (arm9 n1)) (nextStamp (arm7 n1)))
       (core n1)).

(** [core.tasks[0].cycles > core.globalCycles], the inner loop's test.  The
    queue is never empty while a frame runs; the test is taken to fail on an
    empty one. *)
Definition innerTest (n : Nds World) : bool :=
  match tasks (core n) with
  | t :: _ => globalCycles (core n) <? task_cycles t
  | [] => false
  end.

(** The inner [while], bounded by [fuel] iterations. *)
Fixpoint innerLoop (fuel : nat) (n : Nds World) : Nds World :=
  match fuel with
  | O => n
  | S fuel' => if innerTest n then innerLoop fuel' (innerBody n) else n
  end.

(** [innerReach n m]: the inner loop entered in state [n] is in state [m]
    at the end of one of its iterations. *)
Inductive innerReach (n : Nds World) : Nds World -> Prop :=
| reach_first : innerTest n = true -> innerReach n (innerBody n)
| reach_next m :
    innerReach n m -> innerTest m = true -> innerReach n (innerBody m).

(** A CPU's counter, or the largest value of the counters' type when the
    CPU is halted. *)
Definition cyclesOrMax (i : Interpreter) : Z :=
  if truthy (halted i) then 2 ^ W - 1 else cycles i.

(** The pacing invariant. *)
Definition paced (n : Nds World) : Prop :=
  globalCycles (core n) <= Z.min (cyclesOrMax (arm9 n)) (cyclesOrMax (arm7 n)).

(** Both local counters hold values of their unsigned type. *)
Definition counted (n : Nds World) : Prop :=
  0 <= cycles (arm9 n) < 2 ^ W /\ 0 <= cycles (arm7 n) < 2 ^ W.

End DriveLoop.

(** ** The mode table of the specification (section 4.1)

    Written from the table's rows, to be compared with [setCpsr]. *)

Inductive Mode : Type :=
| User | FIQ | IRQ | Supervisor | Abort | Undefined | System.

Definition modeOfCode (m : Z) : option Mode :=
  match m with
  | 0x10 => Some User
  | 0x11 => Some FIQ
  | 0x12 => Some IRQ
  | 0x13 => Some Supervisor
  | 0x17 => Some Abort
  | 0x1B => Some Undefined
  | 0x1F => Some System
  | _ => None
  end.

(** Column [Code]. *)
Definition codeOfMode (m : Mode) : Z :=
  match m with
  | User => 0x10
  | FIQ => 0x11
  | IRQ => 0x12
  | Supervisor => 0x13
  | Abort => 0x17
  | Undefined => 0x1B
  | System => 0x1F
  end.

(** Columns [R8-R12 source] and [R13/R14 source], for [i] from 8 to 14. *)
Definition tableCell (m : Mode) (i : nat) : Cell :=
  match m with
  | User | System => registersUsr i
  | FIQ => registersFiq (i - 8)
  | IRQ => if Nat.leb i 12 then registersUsr i else registersIrq (i - 13)
  | Supervisor => if Nat.leb i 12 then registersUsr i else registersSvc (i - 13)
  | Abort => if Nat.leb i 12 then registersUsr i else registersAbt (i - 13)
  | Undefined => if Nat.leb i 12 then registersUsr i else registersUnd (i - 13)
  end.

(** Column [SPSR]. *)
Definition tableSpsr (m : Mode) : option Cell :=
  match m with
  | User | System => None
  | FIQ => Some spsrFiq
  | IRQ => Some spsrIrq
  | Supervisor => Some spsrSvc
  | Abort => Some spsrAbt
  | Undefined => Some spsrUnd
  end.

(** ** Binding invariant

    Slots 0-7 and 15 always point into the user bank (only the constructor
    assigns them), and whenever the mode bits of [cpsr] name a defined mode
    the slots 8-14 and [spsr] are the ones [setCpsr] gave for that mode. *)

Definition bound (s : Interpreter) : Prop :=
  (forall i, (i < 8 \/ i = 15)%nat -> registers s i = registersUsr i) /\
  (forall m, modeOfCode (Z.land (cpsr s) 0x1F) = Some m ->
     (forall i, (8 <= i <= 14)%nat -> registers s i = tableCell m i) /\
     spsr s = tableSpsr m).

(** [writePostFlg] called once for each value of a list, in order. *)
Definition writePostFlgs (values : list Z) (s : Interpreter) : Interpreter :=
  fold_left (fun s' v => writePostFlg v s') values s.

(** ** Opcode dispatch ([Interpreter::runOpcode])

    The condition table and the two tables of instruction handlers are built
    in other files. *)

Class Decoder (World : Type) : Type := {
  condition : Z -> Z;
  armInstrs : Z -> Z -> St World -> Z * St World;
  thumbInstrs : Z -> Z -> St World -> Z * St World
}.

Section Dispatch.

Context {World : Type} {X : Collaborators World} {H : Handlers World}
  {D : Decoder World}.

(** [Interpreter::runOpcode].  A THUMB handler takes its opcode as
    [uint16_t]. *)
Definition runOpcode (st : St World) : Z * St World :=
  let '(s, c) := st in
  (* Push the next opcode through the pipeline *)
  let opcode := fst (pipeline s) in
  let s1 := set_pipeline (snd (pipeline s), snd (pipeline s)) s in
  if truthy (Z.land (cpsr s1) (BIT 5)) then
    (* THUMB mode *)
    let pc := u32 (readReg 15 s1 + 2) in
    let s2 := writeReg 15 pc s1 in
    let '(v, w) := memory_read16 (cpu s2) pc (world c) in
    thumbInstrs (Z.land (Z.shiftr opcode 6) 0x3FF) (wrap 16 opcode)
      (set_pipeline (fst (pipeline s2), v) s2, set_world w c)
  else
    (* ARM mode *)
    let pc := u32 (readReg 15 s1 + 4) in
    let s2 := writeReg 15 pc s1 in
    let '(v, w) := memory_read32 (cpu s2) pc (world c) in
    let st3 := (set_pipeline (fst (pipeline s2), v) s2, set_world w c) in
    match condition (Z.lor (Z.land (Z.shiftr opcode 24) 0xF0)
                       (Z.shiftr (cpsr s2) 28)) with
    | 0 => (1, st3)
    | 2 => handleReserved opcode st3
    | _ => armInstrs (Z.lor (Z.land (Z.shiftr opcode 16) 0xFF0)
                        (Z.land (Z.shiftr opcode 4) 0xF)) opcode st3
    end.

(** The second half of [runOpcode] on its own: what is done with an opcode
    once the pipeline has advanced. *)
Definition dispatch (opcode : Z) (st : St World) : Z * St World :=
  if truthy (Z.land (cpsr (fst st)) (BIT 5)) then
    thumbInstrs (Z.land (Z.shiftr opcode 6) 0x3FF) (wrap 16 opcode) st
  else
    match condition (Z.lor (Z.land (Z.shiftr opcode 24) 0xF0)
                       (Z.shiftr (cpsr (fst st)) 28)) with
    | 0 => (1, st)
    | 2 => handleReserved opcode st
    | _ => armInstrs (Z.lor (Z.land (Z.shiftr opcode 16) 0xFF0)
                        (Z.land (Z.shiftr opcode 4) 0xF)) opcode st
    end.

End Dispatch.

(** ** Sequences of calls

    The entry points of the interpreter as requests, to speak about every
    state a sequence of them can reach. *)

Inductive Call : Type :=
| CallInit
| CallDirectBoot
| CallSetCpsr (value : Z) (save : bool)
| CallFlushPipeline
| CallException (vector : Z)
| CallSendInterrupt (bit : Z)
| CallInterrupt
| CallWriteIme (value : Z)
| CallWriteIe (mask value : Z)
| CallWriteIrf (mask value : Z)
| CallWritePostFlg (value : Z)
| CallResetCycles.

Section Calls.

Context {World : Type} {X : Collaborators World}.

(** One call; [None] where [exception] dereferences a null [spsr]. *)
Definition call (k : Call) (st : St World) : option (St World) :=
  match k with
  | CallInit => Some (init st)
  | CallDirectBoot => Some (directBoot st)
  | CallSetCpsr value save => Some (setCpsr value save st)
  | CallFlushPipeline => Some (flushPipeline st)
  | CallException vector =>
      match exception vector st with
      | Some (_, st') => Some st'
      | None => None
      end
  | CallSendInterrupt bit => Some (sendInterrupt bit st)
  | CallInterrupt => interrupt st
  | CallWriteIme value => Some (writeIme value st)
  | CallWriteIe mask value => Some (writeIe mask value st)
  | CallWriteIrf mask value => Some (writeIrf mask value (fst st), snd st)
  | CallWritePostFlg value => Some (writePostFlg value (fst st), snd st)
  | CallResetCycles => Some (resetCycles st)
  end.

Fixpoint calls (ks : list Call) (st : St World) : option (St World) :=
  match ks with
  | [] => Some st
  | k :: ks' =>
      match call k st with
      | Some st' => calls ks' st'
      | None => None
      end
  end.

(** A call whose exception vector, if it has one, is inside the mode table
    of [exception]. *)
Definition vectorInTable (k : Call) : Prop :=
  match k with
  | CallException vector => 0 <= vector < 32
  | _ => True
  end.

(** The interrupt task of the CPU is in the queue whenever the pending
    condition holds. *)
Definition armed (st : St World) : Prop :=
  pending (fst st) = true ->
  In (interruptTask (cpu (fst st))) (map task (tasks (snd st))).

End Calls.

(** ** The GBA drive loop ([Interpreter::runGbaFrame]) *)

Section GbaLoop.

Context {World : Type}.
Variable W : Z.
Variable runOpcode : bool -> Nds World -> Z * Nds World.

(** [if (arm7.cycles > core.globalCycles) core.globalCycles = arm7.cycles;] *)
Definition gbaEnter (n : Nds World) : Nds World :=
  if globalCycles (core n) <? cycles (arm7 n)
  then mkNds (arm9 n) (arm7 n) (set_globalCycles (cycles (arm7 n)) (core n))
  else n.

(** [!arm7.halted && core.tasks[0].cycles > arm7.cycles], taken to fail on an
    empty queue. *)
Definition gbaTest (n : Nds World) : bool :=
  negb (truthy (halted (arm7 n)))
  && match tasks (core n) with
     | t :: _ => cycles (arm7 n) <? task_cycles t
     | [] => false
     end.

(** [arm7.cycles = (core.globalCycles += arm7.runOpcode());] *)
Definition gbaBody (n : Nds World) : Nds World :=
  let '(cost, n1) := runOpcode true n in
  let g := wrap W (globalCycles (core n1) + cost) in
  mkNds (arm9 n1) (set_cycles g (arm7 n1)) (set_globalCycles g (core n1)).

Fixpoint gbaLoop (fuel : nat) (n : Nds World) : Nds World :=
  match fuel with
  | O => n
  | S fuel' => if gbaTest n then gbaLoop fuel' (gbaBody n) else n
  end.

(** [gbaReach n m]: the loop entered in state [n] is in state [m] at the end
    of one of its iterations. *)
Inductive gbaReach (n : Nds World) : Nds World -> Prop :=
| gba_first : gbaTest n = true -> gbaReach n (gbaBody n)
| gba_next m : gbaReach n m -> gbaTest m = true -> gbaReach n (gbaBody m).

End GbaLoop.

(** ** Register reads of the 2D engine ([class Gpu2D], inline members) *)

Record Gpu2D : Type := mkGpu2D {
  dispCnt : Z;                  (* uint32_t *)
  bgCnt : list Z                (* uint16_t bgCnt[4] *)
}.


(** [readBgCnt(bg, byte)]: [bgCnt[bg] >> (byte * 8)] converted to
    [uint8_t]; the element is promoted to [int] before the shift.  [None]
    outside the array and for a shift of 32 or more. *)
Definition readBgCnt (bg : nat) (byte : Z) (g : Gpu2D) : option Z :=
  match nth_error (bgCnt g) bg with
  | Some v =>
      if (0 <=? byte) && (byte <? 4)
      then Some (wrap 8 (Z.shiftr v (byte * 8)))
      else None
  | None => None
  end.

(** ** A concrete system

    A small instance of the collaborators, used to run the operations on
    concrete inputs.  The world counts the bus accesses made so far; a read
    returns a value that depends on the CPU id, the address and that count. *)

Module Demo.

Definition World : Type := Z.

Definition read (width : Z) (cpu : bool) (addr : Z) (w : World) : Z * World :=
  (wrap width (addr + (if cpu then 0x07000000 else 0x09000000) + w), w + 1).

(** Insertion into a queue ordered by cycle stamp, after the entries with
    the same stamp. *)
Fixpoint insertTask (t : Task) (l : list Task) : list Task :=
  match l with
  | [] => [t]
  | h :: r =>
      if task_cycles t <? task_cycles h then t :: l else h :: insertTask t r
  end.

(** Modelled from the spec: [Core::schedule] is not part of
    [interpreter.cpp]; section 4.3 says that [schedule(task, delay)] inserts
    at [globalCycles + delay] preserving order, ties breaking by insertion
    order. *)
Definition schedule (t : Task) (c : Core World) : Core World :=
  mkCore (world c) (gbaMode c)
    (insertTask (mkTask (task t) (globalCycles c + task_cycles t)) (tasks c))
    (globalCycles c) (log c).

(** The DLDI stub counts as patched when bit 8 of the world is set; the six
    markers are consecutive opcodes with the reserved condition. *)
#[global] Instance collaborators : Collaborators World := {
  memory_read16 := read 16;
  memory_read32 := read 32;
  cp15_getExceptionAddr := fun _ => 0xFFFF0000;
  cp15_getDtcmAddr := fun _ => 0x027C0000;
  core_schedule := schedule;
  bios_execute := fun _ st => (3, st);
  bios_shouldCheck := fun _ => false;
  bios_checkWaitFlags := fun _ st => st;
  dldi_isPatched := fun w => Z.odd (w / 0x100);
  dldi_startup := fun w => (1, w);
  dldi_isInserted := fun w => (1, w);
  dldi_readSectors := fun _ _ _ _ w => (1, w);
  dldi_writeSectors := fun _ _ _ _ w => (1, w);
  dldi_clearStatus := fun w => (1, w);
  dldi_shutdown := fun w => (1, w);
  DLDI_START := 0xF0000000;
  DLDI_INSERT := 0xF0000001;
  DLDI_READ := 0xF0000002;
  DLDI_WRITE := 0xF0000003;
  DLDI_CLEAR := 0xF0000004;
  DLDI_STOP := 0xF0000005
}.

(** Modelled from the spec: [bx] (BX Rn) is defined in the instruction
    files; the specification has the DLDI hook "return via BX R14" and
    gives a taken branch the cost 3.  The branch sets the THUMB bit from
    bit 0 of the target, loads the program counter and refills the
    pipeline. *)
Definition bxModel (opcode : Z) (st : St World) : Z * St World :=
  let '(s, c) := st in
  let op0 := readReg (Z.to_nat (Z.land opcode 0xF)) s in
  let s1 := if Z.testbit op0 0
            then set_cpsr (Z.lor (cpsr s) (BIT 5)) s else s in
  (3, flushPipeline (writeReg 15 op0 s1, c)).

#[global] Instance handlers : Handlers World := {
  blx := fun _ st => (3, st);
  bx := bxModel;
  ldmiaW := fun _ st => (1, st);
  stmdbW := fun _ st => (1, st)
}.

(** A core at cycle 100 with one foreign task queued at cycle 1000. *)
Definition core0 (gba : bool) (w : World) : Core World :=
  mkCore w gba [mkTask (foreignTask 0) 1000] 100 [].

(** CPUs in System mode with the user bank bound, as after [directBoot]:
    an ARM9 that sleeps with IME = 1, IE = 1 and IRQs enabled; an ARM7 in
    the same state with the HLE BIOS set; and a sleeping ARM7 and ARM9 with
    IME = 0, IE = 1 and IRQs disabled in CPSR. *)
Definition arm9Ready : Interpreter :=
  mkInterpreter false false (fun i => registersUsr i) (fun _ => 0)
    0x0000001F None (0, 0) 1 0 1 1 0 0.

Definition arm7Hle : Interpreter :=
  mkInterpreter true true (fun i => registersUsr i) (fun _ => 0)
    0x0000001F None (0, 0) 1 0 1 1 0 0.

Definition arm7Asleep : Interpreter :=
  mkInterpreter true false (fun i => registersUsr i) (fun _ => 0)
    0x0000009F None (0, 0) 1 0 0 1 0 0.

Definition arm9Asleep : Interpreter :=
  mkInterpreter false false (fun i => registersUsr i) (fun _ => 0)
    0x0000009F None (0, 0) 1 0 0 1 0 0.

(** An opcode that costs one cycle and halts the ARM9 when the global
    counter is odd. *)
Definition run1 (who : bool) (n : Nds World) : Z * Nds World :=
  (1, if Z.odd (globalCycles (core n))
      then mkNds (set_halted 1 (arm9 n)) (arm7 n) (core n) else n).

Definition nds0 : Nds World :=
  mkNds (set_cycles 100 (construct false false))
    (set_cycles 101 (construct true false)) (core0 false 0).

(** A decoder whose condition table fails every condition but "always" and
    marks the reserved one, with handlers that cost one cycle. *)
#[global] Instance decoder : Decoder World := {
  condition := fun i => if i / 16 =? 0xE then 1
                        else if i / 16 =? 0xF then 2 else 0;
  armInstrs := fun _ _ st => (1, st);
  thumbInstrs := fun _ _ st => (1, st)
}.

(** The engine with DISPCNT = 0x12345678 and four BGCNT values. *)
Definition gpu0 : Gpu2D := mkGpu2D 0x12345678 [0x1234; 0xABCD; 0; 0xFFFF].


End Demo.

(** * Properties *)

(** ** Bit-level facts *)

Lemma BIT_pow2 (k : Z) : 0 <= k -> BIT k = 2 ^ k.
Proof.
  intros Hk. unfold BIT. rewrite Z.shiftl_mul_pow2 by assumption. lia.
Qed.

Lemma truthy_land_BIT (x k : Z) :
  0 <= k -> truthy (Z.land x (BIT k)) = Z.testbit x k.
Proof.
  intros Hk. unfold truthy. rewrite BIT_pow2 by assumption.
  destruct (Z.testbit x k) eqn:E.
  - apply negb_true_iff, Z.eqb_neq. intros H0.
    assert (T : Z.testbit (Z.land x (2 ^ k)) k = true).
    { rewrite Z.land_spec, E, Z.pow2_bits_true by assumption. reflexivity. }
    rewrite H0, Z.bits_0 in T. discriminate.
  - apply negb_false_iff, Z.eqb_eq, Z.bits_inj'. intros n Hn.
    rewrite Z.land_spec, Z.bits_0, Z.pow2_bits_eqb by assumption.
    destruct (Z.eqb_spec k n) as [->|_].
    + rewrite E. reflexivity.
    + apply andb_false_r.
Qed.

Lemma testbit_clear_BIT0 (x : Z) :
  Z.testbit (Z.land x (Z.lnot (BIT 0))) 0 = false.
Proof.
  rewrite Z.land_spec, Z.lnot_spec by lia. apply andb_false_r.
Qed.

(** [x & ~(2^k - 1)] rounds [x] down to a multiple of [2^k]. *)
Lemma land_lnot_ones (x k : Z) :
  0 <= k -> Z.land x (Z.lnot (Z.ones k)) = x - x mod 2 ^ k.
Proof.
  intros Hk. rewrite <- Z.ldiff_land, Z.ldiff_ones_r by assumption.
  rewrite Z.shiftr_div_pow2, Z.shiftl_mul_pow2 by assumption.
  pose proof (Z.div_mod x (2 ^ k)) as D.
  assert (0 < 2 ^ k) by (apply Z.pow_pos_nonneg; lia). lia.
Qed.

Lemma Cell_eqb_eq (a b : Cell) : Cell_eqb a b = true <-> a = b.
Proof.
  split.
  - destruct a, b; simpl; intros E; try discriminate; try reflexivity;
      apply Nat.eqb_eq in E; subst; reflexivity.
  - intros <-. destruct a; simpl; auto using Nat.eqb_refl.
Qed.

Lemma Cell_eqb_refl (a : Cell) : Cell_eqb a a = true.
Proof. apply Cell_eqb_eq. reflexivity. Qed.

Lemma Cell_eqb_neq (a b : Cell) : a <> b -> Cell_eqb a b = false.
Proof.
  intros N. destruct (Cell_eqb a b) eqn:E; [|reflexivity].
  apply Cell_eqb_eq in E. contradiction.
Qed.

(** ** Interrupt acknowledgment and the post flag *)

(** C3.  [writeIrf(mask, value)] leaves [irf] equal to
    [irf_before & ~(value & mask)], whatever the request flags were: every
    bit that is set in both [value] and [mask] is cleared, every other bit
    of [irf] keeps its value, and no other member of the CPU changes. *)
Theorem writeIrf_acknowledges (mask value : Z) (s : Interpreter) :
  irf (writeIrf mask value s) = Z.land (irf s) (Z.lnot (Z.land value mask))
  /\ (forall n : nat,
        Z.testbit (irf (writeIrf mask value s)) (Z.of_nat n)
        = if Z.testbit value (Z.of_nat n) && Z.testbit mask (Z.of_nat n)
          then false else Z.testbit (irf s) (Z.of_nat n))
  /\ writeIrf mask value s = set_irf (irf (writeIrf mask value s)) s.
Proof.
  split; [reflexivity|]. split; [|reflexivity].
  intros n. unfold writeIrf. cbn [irf set_irf].
  rewrite Z.land_spec, Z.lnot_spec, Z.land_spec by apply Nat2Z.is_nonneg.
  destruct (Z.testbit value (Z.of_nat n)), (Z.testbit mask (Z.of_nat n));
    cbn; auto using andb_false_r, andb_true_r.
Qed.

Lemma writePostFlg_bit0 (value : Z) (s : Interpreter) :
  Z.testbit (postFlg (writePostFlg value s)) 0
  = Z.testbit (postFlg s) 0 || Z.testbit value 0.
Proof.
  unfold writePostFlg. cbn [cpu postFlg set_postFlg].
  destruct (negb (cpu s)); cbn [postFlg set_postFlg].
  - rewrite Z.lor_spec, !Z.land_spec, Z.lnot_spec, Z.lor_spec, Z.land_spec
      by lia.
    cbn. rewrite !andb_true_r, andb_false_r, orb_false_r. reflexivity.
  - rewrite Z.lor_spec, Z.land_spec. cbn. rewrite andb_true_r. reflexivity.
Qed.

(** C9.  Bit 0 of [postFlg] never decreases under a sequence of
    [writePostFlg] calls, on the ARM9 and on the ARM7 alike: once it is set,
    it is still set after any further writes, whatever the values written. *)
Theorem writePostFlg_bit0_sticky (values : list Z) (s : Interpreter) :
  Z.testbit (postFlg s) 0 = true ->
  Z.testbit (postFlg (writePostFlgs values s)) 0 = true.
Proof.
  unfold writePostFlgs. revert s.
  induction values as [|v values IH]; intros s Hs; simpl.
  - exact Hs.
  - apply IH. rewrite writePostFlg_bit0, Hs. reflexivity.
Qed.

Lemma writePostFlg_bit0_sticky_witness :
  Z.testbit (postFlg (writePostFlg 1 (construct false false))) 0 = true
  /\ Z.testbit (postFlg (writePostFlgs [0; 0xFE; 2; 0]
                           (writePostFlg 1 (construct false false)))) 0 = true.
Proof.
  split.
  - reflexivity.
  - apply (writePostFlg_bit0_sticky [0; 0xFE; 2; 0]
             (writePostFlg 1 (construct false false))).
    reflexivity.
Defined.

(** ** Pipeline refill *)

Section Refill.

Context {World : Type} {X : Collaborators World}.

Lemma store_same (p : Cell) (v : Z) (s : Interpreter) :
  cells (store p v s) p = v.
Proof. unfold store. cbn. rewrite Cell_eqb_refl. reflexivity. Qed.

Lemma store_other (p q : Cell) (v : Z) (s : Interpreter) :
  p <> q -> cells (store p v s) q = cells s q.
Proof. intros N. unfold store. cbn. rewrite Cell_eqb_neq; auto. Qed.

(** What [flushPipeline] computes, with the two bus reads named. *)
Lemma flushPipeline_eq (s : Interpreter) (c : Core World) :
  let thumb := Z.testbit (cpsr s) 5 in
  let width := if thumb then 2 else 4 in
  let read := if thumb then memory_read16 else memory_read32 in
  let pc := u32 (Z.land (readReg 15 s) (Z.lnot (width - 1)) + width) in
  let r0 := read (cpu s) (u32 (pc - width)) (world c) in
  let r1 := read (cpu s) pc (snd r0) in
  flushPipeline (s, c)
  = (set_pipeline (fst r0, fst r1) (writeReg 15 pc s), set_world (snd r1) c).
Proof.
  unfold flushPipeline, readReg, writeReg.
  rewrite truthy_land_BIT by lia.
  destruct (Z.testbit (cpsr s) 5); cbn zeta; cbn [store set_cells cpu];
    change (2 - 1) with 1; change (4 - 1) with 3.
  - destruct (memory_read16 (cpu s) _ (world c)) as [p0 w1]. cbn [fst snd].
    destruct (memory_read16 (cpu s) _ w1) as [p1 w2]. reflexivity.
  - destruct (memory_read32 (cpu s) _ (world c)) as [p0 w1]. cbn [fst snd].
    destruct (memory_read32 (cpu s) _ w1) as [p1 w2]. reflexivity.
Qed.

Lemma readReg_refilled (i : nat) (v : Z) (p : Z * Z) (s : Interpreter) :
  readReg i (set_pipeline p (writeReg i v s)) = v.
Proof.
  unfold readReg, writeReg. cbn [registers set_pipeline cells].
  change (registers (store (registers s i) v s) i) with (registers s i).
  apply store_same.
Qed.

(** C5.  After [flushPipeline], in any state: with the THUMB bit set, the
    program counter is the old one with bit 0 cleared plus 2, and
    [pipeline[0]], [pipeline[1]] are the 16-bit reads, issued in that order
    with the CPU's own id, at PC - 2 and PC; with the THUMB bit clear, the
    program counter is the old one with bits 0-1 cleared plus 4, and the
    slots are the 32-bit reads at PC - 4 and PC.  PC is the value after the
    call and the arithmetic is that of [uint32_t]. *)
Theorem flushPipeline_refills (s : Interpreter) (c : Core World) :
  let s' := fst (flushPipeline (s, c)) in
  let pc := readReg 15 s in
  let pc' := readReg 15 s' in
  if Z.testbit (cpsr s) 5 then
    Z.land pc (Z.lnot 1) = pc - pc mod 2
    /\ pc' = u32 (Z.land pc (Z.lnot 1) + 2)
    /\ let r0 := memory_read16 (cpu s) (u32 (pc' - 2)) (world c) in
       let r1 := memory_read16 (cpu s) pc' (snd r0) in
       pipeline s' = (fst r0, fst r1)
       /\ world (snd (flushPipeline (s, c))) = snd r1
  else
    Z.land pc (Z.lnot 3) = pc - pc mod 4
    /\ pc' = u32 (Z.land pc (Z.lnot 3) + 4)
    /\ let r0 := memory_read32 (cpu s) (u32 (pc' - 4)) (world c) in
       let r1 := memory_read32 (cpu s) pc' (snd r0) in
       pipeline s' = (fst r0, fst r1)
       /\ world (snd (flushPipeline (s, c))) = snd r1.
Proof.
  cbn zeta. rewrite flushPipeline_eq. cbn zeta.
  destruct (Z.testbit (cpsr s) 5);
    cbn [fst snd pipeline set_pipeline world set_world];
    change (2 - 1) with 1; change (4 - 1) with 3;
    rewrite !readReg_refilled.
  - split; [exact (land_lnot_ones _ 1 ltac:(lia))|].
    repeat split; reflexivity.
  - split; [exact (land_lnot_ones _ 2 ltac:(lia))|].
    repeat split; reflexivity.
Qed.

End Refill.

(** ** Bank switching *)

Section Banking.

Context {World : Type} {X : Collaborators World}.

Lemma modeOfCode_Some (code : Z) (m : Mode) :
  modeOfCode code = Some m -> code = codeOfMode m.
Proof.
  unfold modeOfCode. intros E.
  destruct code as [|p|p]; try discriminate.
  do 5 (try (destruct p as [p|p|]; try discriminate)).
  all: injection E as <-; reflexivity.
Qed.

Lemma modeOfCode_codeOfMode (m : Mode) : modeOfCode (codeOfMode m) = Some m.
Proof. destruct m; reflexivity. Qed.

(** On a value that is no defined mode, the [switch] takes its [default]. *)
Lemma swapBanks_default (value : Z) (s : Interpreter) (c : Core World) :
  modeOfCode (Z.land value 0x1F) = None ->
  swapBanks value (s, c) = (s, LOG (UnknownMode (cpu s) (Z.land value 0x1F)) c).
Proof.
  unfold swapBanks, modeOfCode.
  destruct (Z.land value 31) as [|p|p]; try reflexivity.
  do 5 (try (destruct p as [p|p|]; try discriminate; try reflexivity)).
Qed.

(** On a defined mode, the [switch] installs the row of the table. *)
Lemma swapBanks_table (value : Z) (m : Mode) (s : Interpreter) (c : Core World) :
  modeOfCode (Z.land value 0x1F) = Some m ->
  let s' := fst (swapBanks value (s, c)) in
  snd (swapBanks value (s, c)) = c
  /\ spsr s' = tableSpsr m
  /\ cells s' = cells s
  /\ cpsr s' = cpsr s
  /\ (forall i, (8 <= i <= 14)%nat -> registers s' i = tableCell m i)
  /\ (forall i, (i < 8 \/ 14 < i)%nat -> registers s' i = registers s i).
Proof.
  intros E. apply modeOfCode_Some in E. unfold swapBanks. rewrite E.
  destruct m; cbn [codeOfMode fst snd]; cbn -[Nat.eqb Nat.leb Nat.sub];
    (repeat split;
     [ intros i Hi;
       assert (Hc : (i = 8 \/ i = 9 \/ i = 10 \/ i = 11 \/ i = 12 \/ i = 13
                     \/ i = 14)%nat) by lia;
       destruct Hc as [->|[->|[->|[->|[->|[->| ->]]]]]]; reflexivity
     | intros i Hi;
       repeat match goal with
              | |- context [Nat.eqb ?a i] =>
                  destruct (Nat.eqb_spec a i); [lia|]
              end; reflexivity ]).
Qed.

(** What [setCpsr] does after the [switch] leaves the bindings alone. *)
Lemma setCpsr_after_swap (value : Z) (save : bool) (st : St World) :
  let st1 := if Z.land value 0x1F =? Z.land (cpsr (fst st)) 0x1F then st
             else swapBanks value st in
  let s' := fst (setCpsr value save st) in
  registers s' = registers (fst st1)
  /\ spsr s' = spsr (fst st1)
  /\ cpsr s' = value
  /\ cpu s' = cpu (fst st1)
  /\ (forall q, spsr (fst st1) <> Some q \/ save = false ->
        cells s' q = cells (fst st1) q)
  /\ (forall q, spsr (fst st1) = Some q -> save = true ->
        cells s' q = cpsr (fst st1)).
Proof.
  cbn zeta. unfold setCpsr.
  destruct (if Z.land value 31 =? Z.land (cpsr (fst st)) 31 then st
            else swapBanks value st) as [s1 c1].
  cbn [fst].
  match goal with |- context [pending ?s] => destruct (pending s) end;
    cbn [scheduleInterrupt fst];
    (destruct (spsr s1) as [p|] eqn:Ep; [destruct save|]);
    cbn [registers spsr cpsr cpu set_cpsr store set_cells cells];
    repeat split; auto.
  all: try (intros q [N|N]; [|discriminate]).
  all: try (intros q Hq; try injection Hq as <-; intros; try discriminate).
  all: try (rewrite Cell_eqb_neq by congruence; reflexivity).
  all: try (rewrite Cell_eqb_refl; reflexivity).
  all: try discriminate; try reflexivity.
Qed.

(** C4.  A call [setCpsr(value, save)] whose mode bits differ from the
    current ones: when the new mode is one of the seven of the table, the
    slots 8-14 point to the cells of the table's row, so that reading and
    writing R8-R14 go to those cells, and [spsr] is the row's saved status
    register (none for User and System); for any other mode value all
    sixteen bindings and [spsr] stay as they were and the value is logged.
    Slots 0-7 and 15 never move. *)
Theorem setCpsr_banks (value : Z) (save : bool) (s : Interpreter)
    (c : Core World) :
  Z.land value 0x1F <> Z.land (cpsr s) 0x1F ->
  let s' := fst (setCpsr value save (s, c)) in
  match modeOfCode (Z.land value 0x1F) with
  | Some m =>
      (forall i, (8 <= i <= 14)%nat ->
         registers s' i = tableCell m i
         /\ readReg i s' = cells s' (tableCell m i)
         /\ forall v, writeReg i v s' = store (tableCell m i) v s')
      /\ spsr s' = tableSpsr m
      /\ (forall i, (i < 8 \/ 14 < i)%nat -> registers s' i = registers s i)
  | None =>
      (forall i, registers s' i = registers s i)
      /\ spsr s' = spsr s
      /\ (exists c1, swapBanks value (s, c)
                     = (s, c1)
                     /\ log c1
                        = log c ++ [UnknownMode (cpu s) (Z.land value 0x1F)])
  end.
Proof.
  intros Hne. cbn zeta.
  destruct (setCpsr_after_swap value save (s, c)) as (Hr & Hs & _).
  cbn [fst] in Hr, Hs. apply Z.eqb_neq in Hne. rewrite Hne in Hr, Hs.
  destruct (modeOfCode (Z.land value 31)) as [m|] eqn:E.
  - destruct (swapBanks_table value m s c E) as (_ & Hsp & _ & _ & Hb & Hf).
    unfold readReg, writeReg. rewrite Hr, Hs.
    repeat split; auto; rewrite Hb by assumption; reflexivity.
  - rewrite (swapBanks_default value s c E) in Hr, Hs. cbn [fst] in Hr, Hs.
    rewrite Hr, Hs. repeat split.
    exists (LOG (UnknownMode (cpu s) (Z.land value 31)) c).
    split; [apply swapBanks_default; exact E | reflexivity].
Qed.

(** [setCpsr] keeps the binding invariant. *)
Lemma setCpsr_bound (value : Z) (save : bool) (s : Interpreter)
    (c : Core World) :
  bound s -> bound (fst (setCpsr value save (s, c))).
Proof.
  intros [Hu Hm].
  destruct (setCpsr_after_swap value save (s, c)) as (Hr & Hs & Hc & _).
  cbn [fst] in Hr, Hs. unfold bound. rewrite Hr, Hs, Hc.
  destruct (Z.eqb_spec (Z.land value 31) (Z.land (cpsr s) 31)) as [Heq|Hne].
  - split; [exact Hu|]. intros m E. apply Hm. rewrite <- Heq. exact E.
  - destruct (modeOfCode (Z.land value 31)) as [m|] eqn:E.
    + destruct (swapBanks_table value m s c E) as (_ & Hsp & _ & _ & Hb & Hf).
      split.
      * intros i Hi. rewrite Hf by lia. apply Hu. exact Hi.
      * intros m' E'. injection E' as <-. split; assumption.
    + rewrite (swapBanks_default value s c E). cbn [fst].
      split; [exact Hu|]. intros m' E'. discriminate.
Qed.

Lemma construct_bound (cpu bios : bool) : bound (construct cpu bios).
Proof.
  split.
  - intros i _. reflexivity.
  - intros m E. discriminate.
Qed.

End Banking.

(** ** Cold boot and direct boot *)

Section Boot.

Context {World : Type} {X : Collaborators World}.

Lemma swapBanks_cpu (value : Z) (s : Interpreter) (c : Core World) :
  cpu (fst (swapBanks value (s, c))) = cpu s.
Proof.
  destruct (modeOfCode (Z.land value 0x1F)) as [m|] eqn:E.
  - apply modeOfCode_Some in E. unfold swapBanks. rewrite E.
    destruct m; reflexivity.
  - rewrite (swapBanks_default value s c E). reflexivity.
Qed.

Lemma setCpsr_cpu (value : Z) (save : bool) (s : Interpreter) (c : Core World) :
  cpu (fst (setCpsr value save (s, c))) = cpu s.
Proof.
  destruct (setCpsr_after_swap value save (s, c)) as (_ & _ & _ & Hc & _).
  cbn [fst] in Hc. rewrite Hc.
  destruct (Z.land value 31 =? Z.land (cpsr s) 31);
    [reflexivity | apply swapBanks_cpu].
Qed.

Lemma setCpsr_cpsr (value : Z) (save : bool) (st : St World) :
  cpsr (fst (setCpsr value save st)) = value.
Proof. apply (setCpsr_after_swap value save st). Qed.

Lemma store_bound (p : Cell) (v : Z) (s : Interpreter) :
  bound s -> bound (store p v s).
Proof. intros B. exact B. Qed.

(** The CPU after [flushPipeline]: a new program counter and two new
    pipeline slots, nothing else. *)
Lemma flushPipeline_frame (s : Interpreter) (c : Core World) :
  exists p,
    fst (flushPipeline (s, c))
    = set_pipeline p
        (writeReg 15
           (u32 (if Z.testbit (cpsr s) 5
                 then Z.land (readReg 15 s) (Z.lnot 1) + 2
                 else Z.land (readReg 15 s) (Z.lnot 3) + 4)) s).
Proof.
  rewrite flushPipeline_eq. cbn zeta. cbn [fst].
  destruct (Z.testbit (cpsr s) 5); eexists; reflexivity.
Qed.

(** C8.  After [init], from any state that satisfies the binding invariant:
    [cpsr] is 0x000000D3, R15 is 0xFFFF0000 + 4 on the ARM9 and 0 + 4 on the
    ARM7, [spsr] points to the Supervisor saved status register, and IME,
    IE, IRF and POSTFLG are zero. *)
Theorem init_cold_boot (s : Interpreter) (c : Core World) :
  bound s ->
  let s' := fst (init (s, c)) in
  cpsr s' = 0x000000D3
  /\ readReg 15 s' = (if cpu s then 0x00000000 + 4 else 0xFFFF0000 + 4)
  /\ registers s' 15%nat = registersUsr 15
  /\ spsr s' = Some spsrSvc
  /\ ime s' = 0 /\ ie s' = 0 /\ irf s' = 0 /\ postFlg s' = 0
  /\ cpu s' = cpu s.
Proof.
  intros B. cbn zeta. unfold init.
  pose proof (setCpsr_bound 0xD3 false s c B) as B1.
  pose proof (setCpsr_cpsr 0xD3 false (s, c)) as C1.
  pose proof (setCpsr_cpu 0xD3 false s c) as U1.
  destruct (setCpsr 0xD3 false (s, c)) as [s1 c1]. cbn [fst] in B1, C1, U1.
  destruct B1 as [Hu Hm]. rewrite C1 in Hm.
  destruct (Hm Supervisor eq_refl) as [_ Hsp].
  pose proof (Hu 15%nat ltac:(lia)) as H15.
  match goal with
  | |- context [flushPipeline (?a, ?b)] =>
      destruct (flushPipeline_frame a b) as [p Hp];
      destruct (flushPipeline (a, b)) as [s3 c3]
  end.
  cbn [fst] in Hp. subst s3.
  unfold readReg, writeReg.
  cbn [fst cpsr spsr ime ie irf postFlg cpu registers cells store
       set_postFlg set_irf set_ie set_ime set_pipeline set_cells].
  rewrite H15, C1, Hsp, U1. cbn [Cell_eqb Nat.eqb].
  repeat split; try reflexivity.
  destruct (cpu s); reflexivity.
Qed.

(** C10.  [directBoot] reads the entry address with CPU id 0 on both CPUs:
    at 0x27FFE24 when the booted CPU is the ARM9 and at 0x27FFE34 when it is
    the ARM7.  The value the bus returns for that read is what R12 and R14
    hold afterwards, and R15 is that value word-aligned plus 4 (the pipeline
    refill); the CPU is in System mode with the user bank bound. *)
Theorem directBoot_reads_with_cpu0 (s : Interpreter) (c : Core World) :
  bound s ->
  let entryAddr :=
    fst (memory_read32 false (if cpu s then 0x27FFE34 else 0x27FFE24)
           (world c)) in
  let s' := fst (directBoot (s, c)) in
  readReg 12 s' = entryAddr
  /\ readReg 14 s' = entryAddr
  /\ readReg 15 s' = u32 (Z.land entryAddr (Z.lnot 3) + 4)
  /\ cpsr s' = 0x000000DF
  /\ registers s' 12%nat = registersUsr 12
  /\ registers s' 14%nat = registersUsr 14
  /\ registers s' 15%nat = registersUsr 15.
Proof.
  intros B. cbn zeta. unfold directBoot.
  assert (G : forall e s1 c1, bound s1 ->
            let s' := fst (let '(s2, c2) := setCpsr 0xDF false (s1, c1) in
                           flushPipeline
                             (store (registersUsr 15) e
                                (store (registersUsr 14) e
                                   (store (registersUsr 12) e s2)), c2)) in
            readReg 12 s' = e /\ readReg 14 s' = e
            /\ readReg 15 s' = u32 (Z.land e (Z.lnot 3) + 4)
            /\ cpsr s' = 0xDF
            /\ registers s' 12%nat = registersUsr 12
            /\ registers s' 14%nat = registersUsr 14
            /\ registers s' 15%nat = registersUsr 15).
  { intros e s1 c1 B0. cbn zeta.
    pose proof (setCpsr_bound 0xDF false s1 c1 B0) as B1.
    pose proof (setCpsr_cpsr 0xDF false (s1, c1)) as C1.
    destruct (setCpsr 0xDF false (s1, c1)) as [s2 c2]. cbn [fst] in B1, C1.
    destruct B1 as [Hu Hm]. rewrite C1 in Hm.
    destruct (Hm System eq_refl) as [Hb _].
    pose proof (Hu 15%nat ltac:(lia)) as H15.
    pose proof (Hb 12%nat ltac:(lia)) as H12.
    pose proof (Hb 14%nat ltac:(lia)) as H14.
    cbn [tableCell] in H12, H14.
    match goal with
    | |- context [flushPipeline (?a, ?b)] =>
        destruct (flushPipeline_frame a b) as [p Hp];
        destruct (flushPipeline (a, b)) as [s3 c3]
    end.
    cbn [fst] in Hp. subst s3.
    unfold readReg, writeReg.
    cbn [fst cpsr registers cells store set_pipeline set_cells].
    rewrite H15, H12, H14, C1. cbn [Cell_eqb Nat.eqb].
    repeat split; reflexivity. }
  destruct (cpu s); cbn [negb].
  - destruct (memory_read32 false 0x27FFE34 (world c)) as [e w]. cbn [fst].
    apply G. exact B.
  - destruct (memory_read32 false 0x27FFE24 (world c)) as [e w]. cbn [fst].
    apply G. exact B.
Qed.

End Boot.

(** ** Interrupt delivery *)

Section Interrupts.

Context {World : Type} {X : Collaborators World}.

(** Bit 0 enabled in [ie] makes [ie & irf] non-zero once bit 0 of [irf] is
    raised. *)
Lemma enabled_bit0_requested (e f : Z) :
  Z.testbit e 0 = true -> truthy (Z.land e (Z.lor f (BIT 0))) = true.
Proof.
  intros He. unfold truthy. apply negb_true_iff, Z.eqb_neq. intros H0.
  assert (T : Z.testbit (Z.land e (Z.lor f (BIT 0))) 0 = true).
  { rewrite Z.land_spec, Z.lor_spec, He. cbn. apply orb_true_r. }
  rewrite H0 in T. discriminate.
Qed.

(** C7.  With IME = 0 and bit 0 of IE set, whatever CPSR.I and the halt
    state are, [sendInterrupt(0)] leaves the core untouched, so it does not
    schedule the interrupt task.  On the ARM7 it clears bit 0 of [halted]
    (and no other bit); on the ARM9 [halted] keeps its value. *)
Theorem sendInterrupt_without_ime (s : Interpreter) (c : Core World) :
  ime s = 0 ->
  Z.testbit (ie s) 0 = true ->
  let s' := fst (sendInterrupt 0 (s, c)) in
  snd (sendInterrupt 0 (s, c)) = c
  /\ irf s' = Z.lor (irf s) (BIT 0)
  /\ (if cpu s
      then halted s' = Z.land (halted s) (Z.lnot (BIT 0))
           /\ Z.testbit (halted s') 0 = false
      else halted s' = halted s).
Proof.
  intros Hime Hie. cbn zeta. unfold sendInterrupt.
  cbn [ie irf ime cpsr cpu halted set_irf].
  rewrite (enabled_bit0_requested _ _ Hie), Hime.
  cbn [truthy Z.eqb negb andb orb].
  destruct (cpu s); cbn [fst snd irf halted set_halted set_irf].
  - repeat split. apply testbit_clear_BIT0.
  - repeat split.
Qed.

(** The status word built by [exception] for the IRQ vector: mode 0x12,
    IRQ disabled, ARM state. *)
Lemma irq_entry_cpsr (x : Z) :
  let v := Z.lor (Z.lor (Z.land x (Z.lnot 0x3F)) (BIT 7)) 0x12 in
  Z.land v 0x1F = 0x12 /\ Z.testbit v 7 = true /\ Z.testbit v 5 = false.
Proof.
  cbn zeta. split; [|split].
  - rewrite !Z.land_lor_distr_l, <- Z.land_assoc.
    change (Z.land (Z.lnot 63) 31) with 0. rewrite Z.land_0_r. reflexivity.
  - rewrite !Z.lor_spec. cbn. rewrite orb_true_r. reflexivity.
  - rewrite !Z.lor_spec, Z.land_spec, Z.lnot_spec by lia. cbn.
    rewrite andb_false_r. reflexivity.
Qed.

(** A status word with IRQs disabled never re-arms the interrupt check, so
    [setCpsr] leaves the core as the bank [switch] left it. *)
Lemma setCpsr_masked_core (value : Z) (save : bool) (st : St World) :
  Z.testbit value 7 = true ->
  snd (setCpsr value save st)
  = snd (if Z.land value 0x1F =? Z.land (cpsr (fst st)) 0x1F then st
         else swapBanks value st).
Proof.
  intros H7. unfold setCpsr.
  destruct (Z.land value 31 =? Z.land (cpsr (fst st)) 31);
    [destruct st as [s1 c1] | destruct (swapBanks value st) as [s1 c1]];
    unfold pending; cbn [cpsr set_cpsr];
    rewrite truthy_land_BIT, H7 by lia;
    cbn [negb]; rewrite andb_false_r; reflexivity.
Qed.

Lemma swapBanks_halted (value : Z) (s : Interpreter) (c : Core World) :
  halted (fst (swapBanks value (s, c))) = halted s.
Proof.
  destruct (modeOfCode (Z.land value 0x1F)) as [m|] eqn:E.
  - apply modeOfCode_Some in E. unfold swapBanks. rewrite E.
    destruct m; reflexivity.
  - rewrite (swapBanks_default value s c E). reflexivity.
Qed.

Lemma setCpsr_halted (value : Z) (save : bool) (s : Interpreter)
    (c : Core World) :
  halted (fst (setCpsr value save (s, c))) = halted s.
Proof.
  unfold setCpsr. cbn [fst].
  destruct (Z.land value 31 =? Z.land (cpsr s) 31).
  - match goal with |- context [pending ?a] => destruct (pending a) end;
      destruct (spsr s), save; reflexivity.
  - pose proof (swapBanks_halted value s c) as Hh.
    destruct (swapBanks value (s, c)) as [s1 c1]. cbn [fst] in Hh.
    match goal with |- context [pending ?a] => destruct (pending a) end;
      destruct (spsr s1), save; exact Hh.
Qed.

(** Entering a mode of the table with the old status saved. *)
Lemma setCpsr_enter (value : Z) (m : Mode) (q : Cell) (s : Interpreter)
    (c : Core World) :
  bound s ->
  modeOfCode (Z.land value 0x1F) = Some m ->
  tableSpsr m = Some q ->
  Z.testbit value 7 = true ->
  let s1 := fst (setCpsr value true (s, c)) in
  snd (setCpsr value true (s, c)) = c
  /\ bound s1 /\ cpsr s1 = value /\ cpu s1 = cpu s
  /\ spsr s1 = Some q /\ cells s1 q = cpsr s
  /\ halted s1 = halted s.
Proof.
  intros B E Q H7. cbn zeta.
  pose proof (setCpsr_bound value true s c B) as B1.
  pose proof (setCpsr_cpsr value true (s, c)) as C1.
  pose proof (setCpsr_cpu value true s c) as U1.
  pose proof (setCpsr_halted value true s c) as L1.
  pose proof (setCpsr_masked_core value true (s, c) H7) as K1.
  destruct (setCpsr_after_swap value true (s, c)) as (_ & Hs & _ & _ & _ & Hq).
  assert (Hsp : spsr (fst (setCpsr value true (s, c))) = Some q).
  { destruct B1 as [_ Hm]. rewrite C1 in Hm.
    destruct (Hm m E) as [_ ->]. exact Q. }
  pose proof Hsp as Hsp'. rewrite Hs in Hsp'. specialize (Hq q Hsp' eq_refl).
  assert (F : snd (if Z.land value 0x1F =? Z.land (cpsr s) 0x1F
                   then (s, c) else swapBanks value (s, c)) = c
              /\ cpsr (fst (if Z.land value 0x1F =? Z.land (cpsr s) 0x1F
                            then (s, c) else swapBanks value (s, c)))
                 = cpsr s).
  { destruct (Z.land value 31 =? Z.land (cpsr s) 31); [split; reflexivity|].
    destruct (swapBanks_table value m s c E) as (Hc & _ & _ & Hcp & _).
    split; assumption. }
  destruct F as [Fc Fp]. cbn [fst] in K1, Hq.
  exact (conj (eq_trans K1 Fc) (conj B1 (conj C1 (conj U1 (conj Hsp
           (conj (eq_trans Hq Fp) L1)))))).
Qed.

(** C1, as the code has it.  With IME = 1, bit 0 of IE set and CPSR.I = 0,
    [sendInterrupt(0)] raises bit 0 of IRF and schedules the CPU's interrupt
    task with delay 1 on the ARM9 and delay 2 on the ARM7 in NDS mode (1 in
    GBA mode).  When the task later fires in a state [t] where the pending
    condition holds and exception entry is not handed to the HLE BIOS, the
    mode bits of CPSR become 0x12, CPSR.I becomes 1, SPSR_irq holds the CPSR
    of [t], bit 0 of [halted] is clear, and R15 is the vector address
    (exception base + 0x18, the base being 0 on the ARM7) word-aligned plus
    4, the adjustment of the pipeline refill. *)
Theorem interrupt_delivery (s t : Interpreter) (c d : Core World) :
  ime s = 1 ->
  Z.testbit (ie s) 0 = true ->
  Z.testbit (cpsr s) 7 = false ->
  pending t = true ->
  bound t ->
  nativeEntry t d ->
  sendInterrupt 0 (s, c)
  = (set_irf (Z.lor (irf s) (BIT 0)) s,
     core_schedule
       (mkTask (interruptTask (cpu s))
          (if cpu s then if gbaMode c then 1 else 2 else 1)) c)
  /\ exists t' d',
       interrupt (t, d) = Some (t', d')
       /\ Z.land (cpsr t') 0x1F = 0x12
       /\ Z.testbit (cpsr t') 7 = true
       /\ readReg 15 t'
          = u32 (Z.land
                   (u32 ((if cpu t then 0
                          else cp15_getExceptionAddr (world d)) + 0x18))
                   (Z.lnot 3) + 4)
       /\ cells t' spsrIrq = cpsr t
       /\ Z.testbit (halted t') 0 = false.
Proof.
  intros Hime Hie Hi Hp B N. split.
  - unfold sendInterrupt. cbn [ie irf ime cpsr cpu set_irf].
    rewrite (enabled_bit0_requested _ _ Hie), Hime, truthy_land_BIT, Hi by lia.
    cbn [truthy Z.eqb negb andb]. unfold scheduleInterrupt, interruptDelay.
    cbn [cpu set_irf]. destruct (cpu s), (gbaMode c); reflexivity.
  - unfold interrupt. cbn [fst]. rewrite Hp. unfold exception.
    unfold nativeEntry in N. rewrite N.
    change (nth (Z.to_nat (Z.shiftr 24 2)) modes 0) with 0x12.
    destruct (irq_entry_cpsr (cpsr t)) as (Vm & V7 & V5).
    assert (E : modeOfCode
                  (Z.land (Z.lor (Z.lor (Z.land (cpsr t) (Z.lnot 0x3F)) (BIT 7))
                             0x12) 0x1F) = Some IRQ)
      by (rewrite Vm; reflexivity).
    destruct (setCpsr_enter _ IRQ spsrIrq t d B E eq_refl V7)
      as (Kc & B1 & C1 & U1 & Hsp & Hq & _).
    destruct (setCpsr _ true (t, d)) as [s1 c1]. cbn [fst snd] in *.
    subst c1. rewrite Hsp.
    destruct B1 as [Hu Hm]. rewrite C1, Vm in Hm.
    destruct (Hm IRQ eq_refl) as [Hb _].
    pose proof (Hu 15%nat ltac:(lia)) as H15.
    pose proof (Hb 14%nat ltac:(lia)) as H14. cbn [tableCell Nat.leb Nat.sub] in H14.
    match goal with
    | |- context [flushPipeline (?a, ?b)] =>
        destruct (flushPipeline_frame a b) as [p Hf];
        destruct (flushPipeline (a, b)) as [s3 c3]
    end.
    cbn [fst] in Hf. subst s3. eexists. eexists. split; [reflexivity|].
    unfold readReg, writeReg.
    cbn [cpsr cpu registers cells halted store set_halted set_pipeline
         set_cells].
    rewrite H15, H14, C1, U1, V5, Hq. cbn [Cell_eqb Nat.eqb].
    repeat split; auto using testbit_clear_BIT0.
Qed.

End Interrupts.

(** ** Reserved opcodes *)

Section Reserved.

Context {World : Type} {X : Collaborators World} {H : Handlers World}.

Lemma dldiCall_other (opcode : Z) (st : St World) :
  notDldi opcode -> dldiCall opcode st = st.
Proof.
  intros (N1 & N2 & N3 & N4 & N5 & N6). unfold dldiCall.
  destruct st as [s c].
  apply Z.eqb_neq in N1, N2, N3, N4, N5, N6.
  rewrite N1, N2, N3, N4, N5, N6. reflexivity.
Qed.

(** Without a patched DLDI stub, a reserved opcode that is neither BLX nor
    the HLE marker is logged as unknown and costs one cycle. *)
Lemma handleReserved_unpatched (opcode : Z) (s : Interpreter) (c : Core World) :
  Z.land opcode 0x0E000000 <> 0x0A000000 ->
  bios s && (opcode =? 0xFF000000) = false ->
  dldi_isPatched (world c) = false ->
  handleReserved opcode (s, c) = (1, (s, LOG (UnknownArm (cpu s) opcode) c)).
Proof.
  intros N B P. unfold handleReserved. cbn [fst snd].
  apply Z.eqb_neq in N. rewrite N, B, P. reflexivity.
Qed.

(** With a patched DLDI stub, the same opcode falls through the marker
    [switch] and takes the branch to R14: nothing is logged by
    [handleReserved] and the cost is the one of [bx]. *)
Lemma handleReserved_patched (opcode : Z) (s : Interpreter) (c : Core World) :
  Z.land opcode 0x0E000000 <> 0x0A000000 ->
  bios s && (opcode =? 0xFF000000) = false ->
  notDldi opcode ->
  dldi_isPatched (world c) = true ->
  handleReserved opcode (s, c) = bx 14 (s, c).
Proof.
  intros N B D P. unfold handleReserved. cbn [fst snd].
  apply Z.eqb_neq in N. rewrite N, B, P, (dldiCall_other opcode (s, c) D).
  reflexivity.
Qed.

End Reserved.

(** ** The drive loop keeps the global counter behind both CPUs *)

Section Pacing.

Context {World : Type}.
Variable W : Z.
Variable runOpcode : bool -> Nds World -> Z * Nds World.
Hypothesis W_wide : 32 <= W.
Hypothesis runOpcode_counted :
  forall who n, counted W n -> counted W (snd (runOpcode who n)).

Lemma pow_W_pos : 0 < 2 ^ W.
Proof. apply Z.pow_pos_nonneg; lia. Qed.

Lemma stepArm9_counted (n : Nds World) :
  counted W n -> counted W (stepArm9 W runOpcode n).
Proof.
  intros C. unfold stepArm9.
  destruct (negb (truthy (halted (arm9 n)))
            && (cycles (arm9 n) <=? globalCycles (core n))); [|exact C].
  pose proof (runOpcode_counted false n C) as C1.
  destruct (runOpcode false n) as [cost n1]. cbn [snd] in C1.
  destruct C1 as [_ C7]. split; [|exact C7].
  cbn [arm9 cycles set_cycles]. apply Z.mod_pos_bound, pow_W_pos.
Qed.

Lemma stepArm7_counted (n : Nds World) :
  counted W n -> counted W (stepArm7 W runOpcode n).
Proof.
  intros C. unfold stepArm7.
  destruct (negb (truthy (halted (arm7 n)))
            && (cycles (arm7 n) <=? globalCycles (core n))); [|exact C].
  pose proof (runOpcode_counted true n C) as C1.
  destruct (runOpcode true n) as [cost n1]. cbn [snd] in C1.
  destruct C1 as [C9 _]. split; [exact C9|].
  cbn [arm7 cycles set_cycles]. apply Z.mod_pos_bound, pow_W_pos.
Qed.

(** The stamp a CPU contributes to the minimum is never above its counter,
    read as the largest value when the CPU is halted. *)
Lemma nextStamp_le (i : Interpreter) :
  0 <= cycles i -> nextStamp i <= cyclesOrMax W i.
Proof.
  intros C. unfold nextStamp, cyclesOrMax.
  destruct (truthy (halted i)).
  - change (u32 (-1)) with (2 ^ 32 - 1).
    assert (2 ^ 32 <= 2 ^ W) by (apply Z.pow_le_mono_r; lia). lia.
  - unfold u32, wrap. apply Z.mod_le; lia.
Qed.

Lemma innerBody_paced (n : Nds World) :
  counted W n ->
  paced W (innerBody W runOpcode n) /\ counted W (innerBody W runOpcode n).
Proof.
  intros C.
  pose proof (stepArm7_counted _ (stepArm9_counted _ C)) as C2.
  unfold innerBody.
  set (n1 := stepArm7 W runOpcode (stepArm9 W runOpcode n)) in *.
  split; [|exact C2].
  unfold paced. cbn [core arm9 arm7 globalCycles set_globalCycles].
  destruct C2 as [[C9 _] [C7 _]].
  pose proof (nextStamp_le (arm9 n1) C9).
  pose proof (nextStamp_le (arm7 n1) C7). lia.
Qed.

(** C2.  In the NDS drive loop, at the end of every iteration of the inner
    loop, [globalCycles] is at most the minimum of the two CPUs' counters,
    a halted CPU counting as the largest value of the counters' type.  This
    holds in every state the loop reaches, whatever the opcodes do, for
    counters of 32 bits or more that hold values of their type. *)
Theorem runNdsFrame_paced (n m : Nds World) :
  counted W n ->
  innerReach W runOpcode n m ->
  paced W m /\ counted W m.
Proof.
  intros C R. induction R as [T | m R IH T].
  - apply innerBody_paced. exact C.
  - apply innerBody_paced. apply IH.
Qed.

(** Every run of the inner loop that makes at least one iteration ends in a
    paced state. *)
Lemma innerLoop_reach (fuel : nat) (n : Nds World) :
  innerTest n = true ->
  innerReach W runOpcode n (innerLoop W runOpcode (S fuel) n).
Proof.
  intros T. cbn [innerLoop]. rewrite T.
  assert (G : forall f m, innerReach W runOpcode n m ->
                          innerReach W runOpcode n (innerLoop W runOpcode f m)).
  { induction f as [|f IH]; intros m R; cbn [innerLoop]; [exact R|].
    destruct (innerTest m) eqn:Tm; [|exact R].
    apply IH. apply reach_next; assumption. }
  apply G. apply reach_first. exact T.
Qed.

End Pacing.

(** ** Concrete runs *)

Lemma ready_bound (cpu bios : bool) (h c i e f p : Z) (pl : Z * Z)
    (m : Cell -> Z) :
  bound (mkInterpreter cpu bios (fun i => registersUsr i) m 0x0000001F None pl
           h c i e f p).
Proof.
  split.
  - intros k _. reflexivity.
  - intros md E. injection E as <-. split; [intros k _|]; reflexivity.
Qed.

Lemma setCpsr_banks_witness :
  Z.land 0x11 0x1F <> Z.land (cpsr (construct false false)) 0x1F
  /\ registers (fst (setCpsr 0x11 false
                       (construct false false, Demo.core0 false 0))) 13%nat
     = registersFiq 5
  /\ spsr (fst (setCpsr 0x11 false
                  (construct false false, Demo.core0 false 0)))
     = Some spsrFiq.
Proof.
  assert (N : Z.land 0x11 0x1F <> Z.land (cpsr (construct false false)) 0x1F)
    by (vm_compute; discriminate).
  split; [exact N|].
  pose proof (setCpsr_banks 0x11 false (construct false false)
                (Demo.core0 false 0) N) as T.
  cbn zeta in T. change (modeOfCode (Z.land 0x11 0x1F)) with (Some FIQ) in T.
  destruct T as (Hb & Hs & _). split.
  - exact (proj1 (Hb 13%nat ltac:(lia))).
  - exact Hs.
Defined.

Lemma init_cold_boot_witness :
  bound (construct false false)
  /\ cpsr (fst (init (construct false false, Demo.core0 false 0))) = 0xD3
  /\ readReg 15 (fst (init (construct false false, Demo.core0 false 0)))
     = 0xFFFF0004
  /\ spsr (fst (init (construct false false, Demo.core0 false 0)))
     = Some spsrSvc.
Proof.
  pose proof (construct_bound false false) as B.
  split; [exact B|].
  pose proof (init_cold_boot (construct false false) (Demo.core0 false 0) B)
    as (Hc & Hpc & _ & Hs & _).
  repeat split; assumption.
Defined.

Lemma directBoot_reads_with_cpu0_witness :
  bound (construct true false)
  /\ readReg 12 (fst (directBoot (construct true false, Demo.core0 false 0)))
     = fst (Demo.read 32 false 0x27FFE34 0)
  /\ readReg 15 (fst (directBoot (construct true false, Demo.core0 false 0)))
     = 0x0B7FFE38.
Proof.
  pose proof (construct_bound true false) as B.
  split; [exact B|].
  pose proof (directBoot_reads_with_cpu0 (construct true false)
                (Demo.core0 false 0) B) as (H12 & _ & H15 & _).
  split; [exact H12 | exact H15].
Defined.

Lemma sendInterrupt_without_ime_witness :
  (ime Demo.arm7Asleep = 0
   /\ Z.testbit (ie Demo.arm7Asleep) 0 = true
   /\ snd (sendInterrupt 0 (Demo.arm7Asleep, Demo.core0 false 0))
      = Demo.core0 false 0
   /\ Z.testbit
        (halted (fst (sendInterrupt 0 (Demo.arm7Asleep, Demo.core0 false 0))))
        0 = false)
  /\ (ime Demo.arm9Asleep = 0
      /\ Z.testbit (ie Demo.arm9Asleep) 0 = true
      /\ snd (sendInterrupt 0 (Demo.arm9Asleep, Demo.core0 false 0))
         = Demo.core0 false 0
      /\ halted (fst (sendInterrupt 0 (Demo.arm9Asleep, Demo.core0 false 0)))
         = 1).
Proof.
  assert (Hi : ime Demo.arm7Asleep = 0) by reflexivity.
  assert (He : Z.testbit (ie Demo.arm7Asleep) 0 = true) by reflexivity.
  assert (Hi9 : ime Demo.arm9Asleep = 0) by reflexivity.
  assert (He9 : Z.testbit (ie Demo.arm9Asleep) 0 = true) by reflexivity.
  pose proof (sendInterrupt_without_ime Demo.arm7Asleep (Demo.core0 false 0)
                Hi He) as (Hc & _ & _ & Hh).
  pose proof (sendInterrupt_without_ime Demo.arm9Asleep (Demo.core0 false 0)
                Hi9 He9) as (Hc9 & _ & Hh9).
  split; repeat split; assumption.
Defined.

Lemma interrupt_delivery_witness :
  ime Demo.arm9Ready = 1
  /\ Z.testbit (ie Demo.arm9Ready) 0 = true
  /\ Z.testbit (cpsr Demo.arm9Ready) 7 = false
  /\ pending (set_irf 1 Demo.arm9Ready) = true
  /\ bound (set_irf 1 Demo.arm9Ready)
  /\ nativeEntry (set_irf 1 Demo.arm9Ready) (Demo.core0 false 0)
  /\ tasks (snd (sendInterrupt 0 (Demo.arm9Ready, Demo.core0 false 0)))
     = [mkTask (interruptTask false) 101; mkTask (foreignTask 0) 1000]
  /\ exists t' d',
       interrupt (set_irf 1 Demo.arm9Ready, Demo.core0 false 0) = Some (t', d')
       /\ Z.land (cpsr t') 0x1F = 0x12
       /\ readReg 15 t' = 0xFFFF001C
       /\ cells t' spsrIrq = 0x1F.
Proof.
  assert (H1 : ime Demo.arm9Ready = 1) by reflexivity.
  assert (H2 : Z.testbit (ie Demo.arm9Ready) 0 = true) by reflexivity.
  assert (H3 : Z.testbit (cpsr Demo.arm9Ready) 7 = false) by reflexivity.
  assert (H4 : pending (set_irf 1 Demo.arm9Ready) = true) by reflexivity.
  assert (H5 : bound (set_irf 1 Demo.arm9Ready)) by apply ready_bound.
  assert (H6 : nativeEntry (set_irf 1 Demo.arm9Ready) (Demo.core0 false 0))
    by reflexivity.
  pose proof (interrupt_delivery Demo.arm9Ready (set_irf 1 Demo.arm9Ready)
                (Demo.core0 false 0) (Demo.core0 false 0) H1 H2 H3 H4 H5 H6)
    as (Hs & t' & d' & Hi & Hm & _ & Hpc & Hsp & _).
  repeat (split; [assumption|]). split.
  - rewrite Hs. reflexivity.
  - exists t', d'. repeat split; assumption.
Defined.

(** C1 as the specification words it fails on the code.  On the ARM9 without
    HLE BIOS, exception base 0xFFFF0000, the delivered interrupt leaves R15
    at 0xFFFF001C, not at base + 0x18: [exception] refills the pipeline after
    loading the vector address.  On the ARM7 with the HLE BIOS set,
    [exception] returns what [bios->execute] returns; with a BIOS that leaves
    the CPU alone the mode bits are still those of System mode. *)
Lemma interrupt_delivery_counterexample :
  let s := Demo.arm9Ready in
  let s7 := Demo.arm7Hle in
  let c := Demo.core0 false 0 in
  (ime s = 1 /\ Z.testbit (ie s) 0 = true /\ Z.testbit (cpsr s) 7 = false
   /\ pending (fst (sendInterrupt 0 (s, c))) = true
   /\ exists t' d',
        interrupt (sendInterrupt 0 (s, c)) = Some (t', d')
        /\ cp15_getExceptionAddr (world d') = 0xFFFF0000
        /\ readReg 15 t' = 0xFFFF0000 + 0x1C
        /\ readReg 15 t' <> cp15_getExceptionAddr (world d') + 0x18)
  /\ (ime s7 = 1 /\ Z.testbit (ie s7) 0 = true /\ Z.testbit (cpsr s7) 7 = false
      /\ pending (fst (sendInterrupt 0 (s7, c))) = true
      /\ exists t' d',
           interrupt (sendInterrupt 0 (s7, c)) = Some (t', d')
           /\ exception 0x18 (sendInterrupt 0 (s7, c))
              = Some (bios_execute 0x18 (sendInterrupt 0 (s7, c)))
           /\ Z.land (cpsr t') 0x1F <> 0x12).
Proof.
  cbn zeta. split.
  - repeat (split; [reflexivity|]).
    eexists. eexists. split; [vm_compute; reflexivity|].
    split; [reflexivity|]. split; [reflexivity|].
    vm_compute. discriminate.
  - repeat (split; [reflexivity|]).
    eexists. eexists. split; [vm_compute; reflexivity|].
    split; [reflexivity|]. vm_compute. discriminate.
Qed.

(** C6 on the code.  With the DLDI stub patched, the reserved opcode
    0xF0000006, which is not the BLX pattern, not the HLE marker and none of
    the six DLDI markers 0xF0000000-0xF0000005, is not logged and does not
    cost 1: [handleReserved] takes the branch to R14 of the DLDI hook, with
    the cost 3 of [bx] and a refilled pipeline at the branch target.  The
    same opcode without the patch is logged as unknown and costs 1. *)
Theorem handleReserved_patched_unknown_branches :
  let opcode := 0xF0000006 in
  let s := Demo.arm9Ready in
  let patched := Demo.core0 false 0x100 in
  let plain := Demo.core0 false 0 in
  Z.land opcode 0x0E000000 <> 0x0A000000
  /\ notDldi opcode
  /\ dldi_isPatched (world patched) = true
  /\ handleReserved opcode (s, patched) = bx 14 (s, patched)
  /\ fst (handleReserved opcode (s, patched)) = 3
  /\ log (snd (snd (handleReserved opcode (s, patched)))) = []
  /\ readReg 15 (fst (snd (handleReserved opcode (s, patched))))
     = readReg 14 s + 4
  /\ handleReserved opcode (s, patched) <> unkArm opcode (s, patched)
  /\ handleReserved opcode (s, plain)
     = (1, (s, LOG (UnknownArm false opcode) plain)).
Proof.
  cbn zeta.
  assert (N : Z.land 0xF0000006 0x0E000000 <> 0x0A000000)
    by (vm_compute; discriminate).
  assert (D : notDldi 0xF0000006)
    by (unfold notDldi; repeat split; vm_compute; discriminate).
  split; [exact N|]. split; [exact D|]. split; [reflexivity|].
  split; [apply handleReserved_patched; auto|].
  split; [reflexivity|]. split; [reflexivity|]. split; [reflexivity|].
  split.
  - intros E. apply (f_equal fst) in E. vm_compute in E. discriminate.
  - apply handleReserved_unpatched; auto.
Qed.

Lemma runNdsFrame_paced_witness :
  32 <= 32
  /\ counted 32 Demo.nds0
  /\ innerReach 32 Demo.run1 Demo.nds0
       (innerBody 32 Demo.run1 (innerBody 32 Demo.run1 Demo.nds0))
  /\ paced 32 (innerBody 32 Demo.run1 (innerBody 32 Demo.run1 Demo.nds0)).
Proof.
  assert (Hw : 32 <= 32) by lia.
  assert (Hr : forall who n, counted 32 n ->
                             counted 32 (snd (Demo.run1 who n))).
  { intros who n C. unfold Demo.run1. cbn [snd].
    destruct (Z.odd (globalCycles (core n))); exact C. }
  assert (C0 : counted 32 Demo.nds0) by (unfold counted; cbn; lia).
  assert (R : innerReach 32 Demo.run1 Demo.nds0
                (innerBody 32 Demo.run1 (innerBody 32 Demo.run1 Demo.nds0))).
  { apply reach_next; [apply reach_first|]; reflexivity. }
  split; [exact Hw|]. split; [exact C0|]. split; [exact R|].
  exact (proj1 (runNdsFrame_paced 32 Demo.run1 Hw Hr _ _ C0 R)).
Defined.

(** * Further properties *)

(** ** Mode switches keep the register values *)

Section Cells.

Context {World : Type} {X : Collaborators World}.

Lemma swapBanks_keeps (value : Z) (s : Interpreter) (c : Core World) :
  cells (fst (swapBanks value (s, c))) = cells s
  /\ cpsr (fst (swapBanks value (s, c))) = cpsr s
  /\ world (snd (swapBanks value (s, c))) = world c
  /\ tasks (snd (swapBanks value (s, c))) = tasks c.
Proof.
  destruct (modeOfCode (Z.land value 0x1F)) as [m|] eqn:E.
  - destruct (swapBanks_table value m s c E) as (Hc & _ & Hce & Hcp & _).
    rewrite Hc. repeat split; assumption.
  - rewrite (swapBanks_default value s c E). repeat split.
Qed.

(** What [setCpsr] leaves in each cell. *)
Lemma setCpsr_cells (value : Z) (save : bool) (s : Interpreter)
    (c : Core World) (r : Cell) :
  let s' := fst (setCpsr value save (s, c)) in
  cells s' r
  = if save && match spsr s' with
               | Some q => Cell_eqb q r
               | None => false
               end
    then cpsr s else cells s r.
Proof.
  cbn zeta.
  destruct (setCpsr_after_swap value save (s, c))
    as (_ & Hs & _ & _ & Hk & Hq).
  rewrite Hs. cbn [fst] in *.
  match type of Hs with
  | _ = spsr (fst ?t) => destruct t as [s1 c1] eqn:E
  end.
  cbn [fst] in *.
  assert (F : cells s1 = cells s /\ cpsr s1 = cpsr s).
  { destruct (Z.land value 31 =? Z.land (cpsr s) 31).
    - injection E as <- <-. split; reflexivity.
    - destruct (swapBanks_keeps value s c) as (A & B & _).
      rewrite E in A, B. split; assumption. }
  destruct F as (Fc & Fp). rewrite <- Fc, <- Fp.
  destruct save; cbn [andb].
  - destruct (spsr s1) as [q|] eqn:Eq.
    + destruct (Cell_eqb q r) eqn:Eqr.
      * apply Cell_eqb_eq in Eqr. subst r. apply Hq; reflexivity.
      * apply Hk. left. intros N. injection N as ->.
        rewrite Cell_eqb_refl in Eqr. discriminate.
    + apply Hk. left. discriminate.
  - apply Hk. right. reflexivity.
Qed.

(** X1.  [setCpsr] writes no register cell, except that with [save] it stores
    the old CPSR in the saved status register that is current after the
    switch; the values of all banked registers survive every mode change. *)
Theorem setCpsr_keeps_cells (value : Z) (save : bool) (s : Interpreter)
    (c : Core World) (r : Cell) :
  let s' := fst (setCpsr value save (s, c)) in
  cells s' r
  = if save && match spsr s' with
               | Some q => Cell_eqb q r
               | None => false
               end
    then cpsr s else cells s r.
Proof. exact (setCpsr_cells value save s c r). Qed.

End Cells.

(** ** Banked registers across a mode round trip *)

Section RoundTrip.

Context {World : Type} {X : Collaborators World}.

Lemma tableSpsr_not_register (m m' : Mode) (q : Cell) (i : nat) :
  tableSpsr m = Some q -> Cell_eqb q (tableCell m' i) = false.
Proof.
  intros Q. destruct m; try discriminate; injection Q as <-;
    destruct m'; cbn; try destruct (Nat.leb i 12); reflexivity.
Qed.

(** Entering a defined mode leaves every register cell as it was, with or
    without saving the status register. *)
Lemma setCpsr_register_cell (value : Z) (save : bool) (s : Interpreter)
    (c : Core World) (m1 m : Mode) (i : nat) :
  bound s ->
  modeOfCode (Z.land value 0x1F) = Some m1 ->
  cells (fst (setCpsr value save (s, c))) (tableCell m i)
  = cells s (tableCell m i).
Proof.
  intros B E. rewrite setCpsr_cells.
  destruct save; [|reflexivity]. cbn [andb].
  pose proof (setCpsr_bound value true s c B) as [_ Hm].
  rewrite setCpsr_cpsr in Hm. destruct (Hm m1 E) as [_ Hq].
  rewrite Hq. destruct (tableSpsr m1) as [q|] eqn:Q; [|reflexivity].
  rewrite (tableSpsr_not_register m1 m q i Q). reflexivity.
Qed.

(** X2.  Leave a defined mode for another defined mode, write register
    R8-R14 there, and come back: the register reads the written value when
    the two modes share its cell and its old value when the cell is banked,
    whether or not the status register was saved on the way. *)
Theorem banked_register_round_trip (value x : Z) (save1 save2 : bool)
    (s : Interpreter) (c c' : Core World) (m0 m1 : Mode) (i : nat) :
  bound s ->
  modeOfCode (Z.land (cpsr s) 0x1F) = Some m0 ->
  modeOfCode (Z.land value 0x1F) = Some m1 ->
  (8 <= i <= 14)%nat ->
  let s1 := fst (setCpsr value save1 (s, c)) in
  let s2 := writeReg i x s1 in
  let s3 := fst (setCpsr (cpsr s) save2 (s2, c')) in
  readReg i s2 = x
  /\ readReg i s3
     = if Cell_eqb (tableCell m1 i) (tableCell m0 i) then x else readReg i s.
Proof.
  intros B E0 E1 Hi. cbn zeta.
  pose proof (setCpsr_bound value save1 s c B) as B1.
  pose proof (setCpsr_cpsr value save1 (s, c)) as C1.
  set (s1 := fst (setCpsr value save1 (s, c))) in *.
  assert (B2 : bound (writeReg i x s1)) by exact B1.
  pose proof (setCpsr_bound (cpsr s) save2 (writeReg i x s1) c' B2) as B3.
  pose proof (setCpsr_cpsr (cpsr s) save2 (writeReg i x s1, c')) as C3.
  pose proof (setCpsr_register_cell (cpsr s) save2 (writeReg i x s1) c' m0 m0 i
                B2 E0) as K3.
  set (s3 := fst (setCpsr (cpsr s) save2 (writeReg i x s1, c'))) in *.
  pose proof B as B0.
  destruct B as [_ Bm]. destruct (Bm m0 E0) as [Hb0 _].
  destruct B1 as [_ Bm1]. rewrite C1 in Bm1. destruct (Bm1 m1 E1) as [Hb1 _].
  destruct B3 as [_ Bm3]. rewrite C3 in Bm3. destruct (Bm3 m0 E0) as [Hb3 _].
  split.
  - unfold readReg, writeReg. cbn [registers store set_cells cells].
    rewrite Cell_eqb_refl. reflexivity.
  - unfold readReg. rewrite (Hb3 i Hi), (Hb0 i Hi), K3.
    unfold writeReg, store. cbn [cells set_cells]. rewrite (Hb1 i Hi).
    destruct (Cell_eqb (tableCell m1 i) (tableCell m0 i)); [reflexivity|].
    exact (setCpsr_register_cell value save1 s c m1 m0 i B0 E1).
Qed.

End RoundTrip.

(** ** Exception entry for every vector *)

Section Entry.

Context {World : Type} {X : Collaborators World}.

(** The status word [exception] builds for a mode code of five bits. *)
Lemma entry_cpsr (x mc : Z) :
  Z.land mc 0x1F = mc ->
  let v := Z.lor (Z.lor (Z.land x (Z.lnot 0x3F)) (BIT 7)) mc in
  Z.land v 0x1F = mc
  /\ Z.testbit v 7 = true
  /\ Z.testbit v 5 = false
  /\ Z.testbit v 6 = Z.testbit x 6
  /\ (forall n, 8 <= n -> Z.testbit v n = Z.testbit x n).
Proof.
  intros Hmc. cbn zeta.
  assert (Hhi : forall n, 5 <= n -> Z.testbit mc n = false).
  { intros n Hn. rewrite <- Hmc, Z.land_spec.
    change 31 with (Z.ones 5). rewrite Z.ones_spec_high by lia.
    apply andb_false_r. }
  split; [|split; [|split; [|split]]].
  - rewrite !Z.land_lor_distr_l, <- Z.land_assoc.
    change (Z.land (Z.lnot 63) 31) with 0.
    rewrite Z.land_0_r, Hmc. reflexivity.
  - rewrite !Z.lor_spec. cbn. rewrite orb_true_r. reflexivity.
  - rewrite !Z.lor_spec, Z.land_spec, Z.lnot_spec, (Hhi 5) by lia. cbn.
    rewrite andb_false_r. reflexivity.
  - rewrite !Z.lor_spec, Z.land_spec, Z.lnot_spec, (Hhi 6) by lia. cbn.
    rewrite andb_true_r, !orb_false_r. reflexivity.
  - intros n Hn.
    rewrite !Z.lor_spec, Z.land_spec, Z.lnot_spec, (Hhi n) by lia.
    change 63 with (Z.ones 6). rewrite Z.ones_spec_high by lia.
    rewrite BIT_pow2, Z.pow2_bits_false by lia. cbn.
    rewrite andb_true_r, !orb_false_r. reflexivity.
Qed.

(** The body of [exception] past the HLE test, for a privileged mode [m] of
    the table. *)
Lemma exception_native (m : Mode) (q : Cell) (vector : Z) (s : Interpreter)
    (c : Core World) :
  bound s ->
  tableSpsr m = Some q ->
  nativeEntry s c ->
  nth (Z.to_nat (Z.shiftr vector 2)) modes 0 = codeOfMode m ->
  exists s' w,
    exception vector (s, c) = Some (3, (s', set_world w c))
    /\ bound s'
    /\ cpsr s'
       = Z.lor (Z.lor (Z.land (cpsr s) (Z.lnot 0x3F)) (BIT 7)) (codeOfMode m)
    /\ spsr s' = Some q
    /\ cells s' q = cpsr s
    /\ readReg 14 s'
       = u32 (readReg 15 s + (if Z.testbit (cpsr s) 5 then 2 else 0))
    /\ readReg 15 s'
       = u32 (Z.land
                (u32 ((if cpu s then 0
                       else cp15_getExceptionAddr (world c)) + vector))
                (Z.lnot 3) + 4)
    /\ halted s' = halted s.
Proof.
  intros B Q N Hv. unfold exception. unfold nativeEntry in N. rewrite N, Hv.
  assert (Hmc : Z.land (codeOfMode m) 0x1F = codeOfMode m)
    by (destruct m; reflexivity).
  destruct (entry_cpsr (cpsr s) (codeOfMode m) Hmc) as (Vm & V7 & V5 & _).
  assert (E : modeOfCode
                (Z.land (Z.lor (Z.lor (Z.land (cpsr s) (Z.lnot 0x3F)) (BIT 7))
                           (codeOfMode m)) 0x1F) = Some m)
    by (rewrite Vm; apply modeOfCode_codeOfMode).
  pose proof (setCpsr_register_cell _ true s c m User 15%nat B E) as K15.
  cbn [tableCell] in K15.
  destruct (setCpsr_enter _ m q s c B E Q V7)
    as (Kc & B1 & C1 & U1 & Hsp & Hq & Hh).
  destruct (setCpsr _ true (s, c)) as [s1 c1]. cbn [fst snd] in *.
  subst c1. rewrite Hsp.
  pose proof B as [Hu0 _]. pose proof B1 as [Hu Hm]. rewrite C1, Vm in Hm.
  destruct (Hm m (modeOfCode_codeOfMode m)) as [Hb _].
  pose proof (Hu 15%nat ltac:(lia)) as H15.
  pose proof (Hu0 15%nat ltac:(lia)) as H015.
  pose proof (Hb 14%nat ltac:(lia)) as H14.
  match goal with
  | |- context [flushPipeline (?a, ?b)] =>
      pose proof (flushPipeline_eq a b) as Hw;
      destruct (flushPipeline_frame a b) as [p Hf];
      destruct (flushPipeline (a, b)) as [s3 c3]
  end.
  cbn [fst] in Hf. subst s3. cbn zeta in Hw.
  injection Hw as _ Hw. subst c3.
  eexists. eexists. split; [reflexivity|].
  split; [exact B1|].
  unfold readReg, writeReg.
  cbn [cpsr cpu spsr registers cells halted store set_pipeline set_cells].
  rewrite H15, H14, H015, C1, U1, V5, Hq, truthy_land_BIT by lia.
  rewrite K15.
  destruct m; try discriminate; injection Q as <-; cbn [tableCell Nat.leb Nat.sub Cell_eqb Nat.eqb];
    repeat split; auto.
Qed.

(** [exception] on every vector of the table. *)
Lemma exception_entry_all (vector : Z) (s : Interpreter) (c : Core World) :
  bound s ->
  nativeEntry s c ->
  0 <= vector < 32 ->
  exists m q s' w,
    nth_error [Supervisor; Undefined; Supervisor; Abort; Abort; Supervisor;
               IRQ; FIQ] (Z.to_nat (vector / 4)) = Some m
    /\ tableSpsr m = Some q
    /\ exception vector (s, c) = Some (3, (s', set_world w c))
    /\ bound s'
    /\ Z.land (cpsr s') 0x1F = codeOfMode m
    /\ Z.testbit (cpsr s') 7 = true
    /\ Z.testbit (cpsr s') 5 = false
    /\ Z.testbit (cpsr s') 6 = Z.testbit (cpsr s) 6
    /\ (forall n, 8 <= n -> Z.testbit (cpsr s') n = Z.testbit (cpsr s) n)
    /\ spsr s' = Some q
    /\ cells s' q = cpsr s
    /\ readReg 14 s'
       = u32 (readReg 15 s + (if Z.testbit (cpsr s) 5 then 2 else 0))
    /\ readReg 15 s'
       = u32 (Z.land
                (u32 ((if cpu s then 0
                       else cp15_getExceptionAddr (world c)) + vector))
                (Z.lnot 3) + 4).
Proof.
  intros B N Hv.
  assert (Hq : 0 <= vector / 4 < 8)
    by (split; [apply Z.div_pos; lia | apply Z.div_lt_upper_bound; lia]).
  assert (Hs : Z.shiftr vector 2 = vector / 4)
    by (rewrite Z.shiftr_div_pow2 by lia; reflexivity).
  assert (Hc : vector / 4 = 0 \/ vector / 4 = 1 \/ vector / 4 = 2
               \/ vector / 4 = 3 \/ vector / 4 = 4 \/ vector / 4 = 5
               \/ vector / 4 = 6 \/ vector / 4 = 7) by lia.
  assert (G : forall m q,
            tableSpsr m = Some q ->
            nth (Z.to_nat (vector / 4)) modes 0 = codeOfMode m ->
            nth_error [Supervisor; Undefined; Supervisor; Abort; Abort;
                       Supervisor; IRQ; FIQ] (Z.to_nat (vector / 4)) = Some m ->
            exists m q s' w,
              nth_error [Supervisor; Undefined; Supervisor; Abort; Abort;
                         Supervisor; IRQ; FIQ] (Z.to_nat (vector / 4)) = Some m
              /\ tableSpsr m = Some q
              /\ exception vector (s, c) = Some (3, (s', set_world w c))
              /\ bound s'
              /\ Z.land (cpsr s') 0x1F = codeOfMode m
              /\ Z.testbit (cpsr s') 7 = true
              /\ Z.testbit (cpsr s') 5 = false
              /\ Z.testbit (cpsr s') 6 = Z.testbit (cpsr s) 6
              /\ (forall n, 8 <= n ->
                    Z.testbit (cpsr s') n = Z.testbit (cpsr s) n)
              /\ spsr s' = Some q
              /\ cells s' q = cpsr s
              /\ readReg 14 s'
                 = u32 (readReg 15 s
                        + (if Z.testbit (cpsr s) 5 then 2 else 0))
              /\ readReg 15 s'
                 = u32 (Z.land
                          (u32 ((if cpu s then 0
                                 else cp15_getExceptionAddr (world c))
                                + vector))
                          (Z.lnot 3) + 4)).
  { intros m q Q Hn Hl. rewrite <- Hs in Hn.
    destruct (exception_native m q vector s c B Q N Hn)
      as (s' & w & He & B' & Hcp & Hsp & Hsv & H14 & H15 & _).
    assert (Hmc : Z.land (codeOfMode m) 0x1F = codeOfMode m)
      by (destruct m; reflexivity).
    destruct (entry_cpsr (cpsr s) (codeOfMode m) Hmc)
      as (Vm & V7 & V5 & V6 & Vh).
    exists m, q, s', w. rewrite Hcp.
    exact (conj Hl (conj Q (conj He (conj B' (conj Vm (conj V7 (conj V5
             (conj V6 (conj Vh (conj Hsp (conj Hsv (conj H14 H15)))))))))))). }
  destruct Hc as [R|[R|[R|[R|[R|[R|[R|R]]]]]]].
  - apply (G Supervisor spsrSvc); rewrite ?R; reflexivity.
  - apply (G Undefined spsrUnd); rewrite ?R; reflexivity.
  - apply (G Supervisor spsrSvc); rewrite ?R; reflexivity.
  - apply (G Abort spsrAbt); rewrite ?R; reflexivity.
  - apply (G Abort spsrAbt); rewrite ?R; reflexivity.
  - apply (G Supervisor spsrSvc); rewrite ?R; reflexivity.
  - apply (G IRQ spsrIrq); rewrite ?R; reflexivity.
  - apply (G FIQ spsrFiq); rewrite ?R; reflexivity.
Qed.

(** X3.  Exception entry for every vector of the table, in a state with
    consistent bindings and without HLE forwarding: [exception] does not
    dereference a null [spsr], costs 3, enters the mode of the table
    (Supervisor for reset, SWI and the reserved vector, Undefined, Abort for
    both aborts, IRQ, FIQ) with IRQs disabled and the THUMB bit clear, keeps
    bit 6 and bits 8-31 of CPSR, saves the old CPSR in the new mode's SPSR,
    leaves the return address R15 (+2 when the CPU was in THUMB state) in the
    new mode's R14 and R15 at the word-aligned vector address plus 4.  The
    core is only changed by the two bus reads of the refill. *)
Theorem exception_entry (vector : Z) (s : Interpreter) (c : Core World) :
  bound s ->
  nativeEntry s c ->
  0 <= vector < 32 ->
  exists m q s' w,
    nth_error [Supervisor; Undefined; Supervisor; Abort; Abort; Supervisor;
               IRQ; FIQ] (Z.to_nat (vector / 4)) = Some m
    /\ tableSpsr m = Some q
    /\ exception vector (s, c) = Some (3, (s', set_world w c))
    /\ bound s'
    /\ Z.land (cpsr s') 0x1F = codeOfMode m
    /\ Z.testbit (cpsr s') 7 = true
    /\ Z.testbit (cpsr s') 5 = false
    /\ Z.testbit (cpsr s') 6 = Z.testbit (cpsr s) 6
    /\ (forall n, 8 <= n -> Z.testbit (cpsr s') n = Z.testbit (cpsr s) n)
    /\ spsr s' = Some q
    /\ cells s' q = cpsr s
    /\ readReg 14 s'
       = u32 (readReg 15 s + (if Z.testbit (cpsr s) 5 then 2 else 0))
    /\ readReg 15 s'
       = u32 (Z.land
                (u32 ((if cpu s then 0
                       else cp15_getExceptionAddr (world c)) + vector))
                (Z.lnot 3) + 4).
Proof. exact (exception_entry_all vector s c). Qed.

End Entry.

(** ** Every reachable state has consistent bindings *)

Section Reachable.

Context {World : Type} {X : Collaborators World}.

(** The HLE BIOS, when it takes an exception over, hands back a CPU whose
    bindings follow the mode table. *)
Hypothesis bios_keeps_bound :
  forall vector st, bound (fst st) -> bound (fst (snd (bios_execute vector st))).

Lemma flushPipeline_bound (s : Interpreter) (c : Core World) :
  bound s -> bound (fst (flushPipeline (s, c))).
Proof.
  intros B. destruct (flushPipeline_frame s c) as [p ->]. exact B.
Qed.

Lemma init_bound (s : Interpreter) (c : Core World) :
  bound s -> bound (fst (init (s, c))).
Proof.
  intros B. unfold init.
  pose proof (setCpsr_bound 0xD3 false s c B) as B1.
  destruct (setCpsr 0xD3 false (s, c)) as [s1 c1]. cbn [fst] in B1.
  match goal with
  | |- context [flushPipeline (?a, ?b)] =>
      pose proof (flushPipeline_bound a b B1) as B3;
      destruct (flushPipeline (a, b)) as [s3 c3]
  end.
  exact B3.
Qed.

Lemma directBoot_bound (s : Interpreter) (c : Core World) :
  bound s -> bound (fst (directBoot (s, c))).
Proof.
  intros B. unfold directBoot.
  assert (G : forall e s1 c1, bound s1 ->
            bound (fst (let '(s2, c2) := setCpsr 0xDF false (s1, c1) in
                        flushPipeline
                          (store (registersUsr 15) e
                             (store (registersUsr 14) e
                                (store (registersUsr 12) e s2)), c2)))).
  { intros e s1 c1 B0.
    pose proof (setCpsr_bound 0xDF false s1 c1 B0) as B1.
    destruct (setCpsr 0xDF false (s1, c1)) as [s2 c2]. cbn [fst] in B1.
    apply flushPipeline_bound. exact B1. }
  destruct (cpu s); cbn [negb].
  - destruct (memory_read32 false 0x27FFE34 (world c)) as [e w].
    apply G. exact B.
  - destruct (memory_read32 false 0x27FFE24 (world c)) as [e w].
    apply G. exact B.
Qed.

Lemma sendInterrupt_bound (bit : Z) (s : Interpreter) (c : Core World) :
  bound s -> bound (fst (sendInterrupt bit (s, c))).
Proof.
  intros B. unfold sendInterrupt.
  repeat match goal with
         | |- context [if ?b then _ else _] => destruct b
         end; exact B.
Qed.

Lemma writeIme_bound (value : Z) (s : Interpreter) (c : Core World) :
  bound s -> bound (fst (writeIme value (s, c))).
Proof.
  intros B. unfold writeIme.
  match goal with |- context [pending ?a] => destruct (pending a) end; exact B.
Qed.

Lemma writeIe_bound (mask value : Z) (s : Interpreter) (c : Core World) :
  bound s -> bound (fst (writeIe mask value (s, c))).
Proof.
  intros B. unfold writeIe.
  match goal with |- context [pending ?a] => destruct (pending a) end; exact B.
Qed.

Lemma writePostFlg_bound (value : Z) (s : Interpreter) :
  bound s -> bound (writePostFlg value s).
Proof.
  intros B. unfold writePostFlg. cbn [cpu set_postFlg].
  destruct (negb (cpu s)); exact B.
Qed.

(** [exception] on a state with consistent bindings returns, and returns
    such a state. *)
Lemma exception_bound (vector : Z) (s : Interpreter) (c : Core World) :
  bound s -> 0 <= vector < 32 ->
  exists k st', exception vector (s, c) = Some (k, st') /\ bound (fst st').
Proof.
  intros B Hv.
  destruct (bios s && (cpu s || truthy (cp15_getExceptionAddr (world c))))
    eqn:N.
  - unfold exception. rewrite N.
    destruct (bios_execute vector (s, c)) as [k st'] eqn:E.
    exists k, st'. split; [reflexivity|].
    pose proof (bios_keeps_bound vector (s, c) B) as B'.
    rewrite E in B'. exact B'.
  - destruct (exception_entry_all vector s c B N Hv)
      as (m & q & s' & w & _ & _ & He & B' & _).
    exists 3, (s', set_world w c). split; assumption.
Qed.

Lemma call_bound (k : Call) (st : St World) :
  bound (fst st) -> vectorInTable k ->
  exists st', call k st = Some st' /\ bound (fst st').
Proof.
  intros B V. destruct st as [s c]. cbn [fst] in B.
  destruct k; cbn [call vectorInTable] in *;
    try (eexists; split; [reflexivity|]).
  - apply init_bound, B.
  - apply directBoot_bound, B.
  - apply setCpsr_bound, B.
  - apply flushPipeline_bound, B.
  - destruct (exception_bound vector s c B V) as (k & st' & -> & B').
    exists st'. split; [reflexivity | exact B'].
  - apply sendInterrupt_bound, B.
  - unfold interrupt. cbn [fst]. destruct (pending s).
    + destruct (exception_bound 0x18 s c B ltac:(lia))
        as (k & [s' c'] & -> & B').
      eexists. split; [reflexivity | exact B'].
    + eexists. split; [reflexivity | exact B].
  - apply writeIme_bound, B.
  - apply writeIe_bound, B.
  - exact B.
  - apply writePostFlg_bound, B.
  - exact B.
Qed.

Lemma calls_bound (ks : list Call) (st : St World) :
  bound (fst st) -> Forall vectorInTable ks ->
  exists st', calls ks st = Some st' /\ bound (fst st').
Proof.
  revert st. induction ks as [|k ks IH]; intros st B V; cbn [calls].
  - exists st. split; [reflexivity | exact B].
  - inversion V as [|? ? Vk Vks]; subst.
    destruct (call_bound k st B Vk) as (st1 & -> & B1).
    apply IH; assumption.
Qed.

(** X4.  From the constructed object, every sequence of calls of [init],
    [directBoot], [setCpsr], [flushPipeline], [exception] (vectors 0-31),
    [sendInterrupt], [interrupt] and the register writes runs to its end:
    [exception] never dereferences a null [spsr].  In the state reached,
    whenever the mode bits of CPSR name a defined mode, R8-R14 are bound to
    the cells of that mode and [spsr] is null exactly in User and System
    mode. *)
Theorem calls_keep_bindings (ks : list Call) (cpu bios : bool)
    (c : Core World) :
  Forall vectorInTable ks ->
  exists s' c',
    calls ks (construct cpu bios, c) = Some (s', c')
    /\ forall m, modeOfCode (Z.land (cpsr s') 0x1F) = Some m ->
         (forall i, (8 <= i <= 14)%nat -> registers s' i = tableCell m i)
         /\ spsr s' = tableSpsr m
         /\ (spsr s' = None <-> m = User \/ m = System).
Proof.
  intros V.
  destruct (calls_bound ks (construct cpu bios, c) (construct_bound cpu bios) V)
    as ([s' c'] & E & [_ Bm]).
  cbn [fst] in Bm. exists s', c'. split; [exact E|]. intros m Em.
  destruct (Bm m Em) as [Hb Hs]. split; [exact Hb|]. split; [exact Hs|].
  rewrite Hs. destruct m; cbn; split;
    try (intros [N|N]); try discriminate; auto.
Qed.

End Reachable.

Lemma calls_keep_bindings_witness :
  Forall vectorInTable
    [CallInit; CallWriteIme 1; CallWriteIe 0xFFFFFFFF 1;
     CallSetCpsr 0x10 false; CallSendInterrupt 0; CallInterrupt;
     CallException 0x08]
  /\ exists s' c',
       calls [CallInit; CallWriteIme 1; CallWriteIe 0xFFFFFFFF 1;
              CallSetCpsr 0x10 false; CallSendInterrupt 0; CallInterrupt;
              CallException 0x08]
         (construct false false, Demo.core0 false 0) = Some (s', c')
       /\ spsr s' = Some spsrSvc.
Proof.
  assert (V : Forall vectorInTable
                [CallInit; CallWriteIme 1; CallWriteIe 0xFFFFFFFF 1;
                 CallSetCpsr 0x10 false; CallSendInterrupt 0; CallInterrupt;
                 CallException 0x08]).
  { repeat constructor; cbn; lia. }
  assert (Hb : forall vector (st : St Demo.World), bound (fst st) ->
                 bound (fst (snd (bios_execute vector st)))).
  { intros vector st B. exact B. }
  split; [exact V|].
  destruct (calls_keep_bindings Hb _ false false (Demo.core0 false 0) V)
    as (s' & c' & E & Hm).
  exists s', c'. split; [exact E|].
  assert (Em : modeOfCode (Z.land (cpsr s') 0x1F) = Some Supervisor).
  { vm_compute in E. injection E as <- _. reflexivity. }
  exact (proj1 (proj2 (Hm Supervisor Em))).
Defined.

(** ** The interrupt registers *)

Section InterruptRegisters.

Context {World : Type} {X : Collaborators World}.

Lemma sendInterrupt_fields (bit : Z) (s : Interpreter) (c : Core World) :
  let s' := fst (sendInterrupt bit (s, c)) in
  irf s' = Z.lor (irf s) (BIT bit) /\ ie s' = ie s /\ ime s' = ime s
  /\ cpsr s' = cpsr s /\ cpu s' = cpu s.
Proof.
  cbn zeta. unfold sendInterrupt.
  repeat match goal with
         | |- context [if ?b then _ else _] => destruct b
         end; repeat split.
Qed.

(** X6.  [sendInterrupt] on a request that leaves [ie & irf] at zero only
    raises the bit in [irf]: the CPU stays halted and nothing is scheduled.
    On an enabled request with IME set but IRQs disabled in CPSR, on either
    CPU, it clears bit 0 of [halted] (the CPU wakes) and schedules
    nothing. *)
Theorem sendInterrupt_quiet_cases (bit : Z) (s : Interpreter)
    (c : Core World) :
  (Z.land (ie s) (Z.lor (irf s) (BIT bit)) = 0 ->
   sendInterrupt bit (s, c) = (set_irf (Z.lor (irf s) (BIT bit)) s, c))
  /\ (Z.land (ie s) (Z.lor (irf s) (BIT bit)) <> 0 ->
      ime s <> 0 -> Z.testbit (cpsr s) 7 = true ->
      sendInterrupt bit (s, c)
      = (set_halted (Z.land (halted s) (Z.lnot (BIT 0)))
           (set_irf (Z.lor (irf s) (BIT bit)) s), c)).
Proof.
  split.
  - intros Hz. unfold sendInterrupt. cbn [ie irf set_irf]. rewrite Hz.
    reflexivity.
  - intros Hnz Hime Hi. unfold sendInterrupt.
    cbn [ie irf ime cpsr cpu halted set_irf].
    rewrite truthy_land_BIT, Hi by lia. unfold truthy.
    apply Z.eqb_neq in Hnz, Hime. rewrite Hnz, Hime. reflexivity.
Qed.

(** An acknowledgment cannot make the pending condition hold. *)
Lemma writeIrf_pending (mask value : Z) (s : Interpreter) :
  pending (writeIrf mask value s) = true -> pending s = true.
Proof.
  unfold writeIrf, pending. cbn [ime ie irf cpsr set_irf].
  destruct (truthy (ime s)); [|discriminate].
  destruct (negb (truthy (Z.land (cpsr s) (BIT 7))));
    [|rewrite andb_false_r; discriminate].
  rewrite !andb_true_r. cbn [andb]. unfold truthy.
  intros P. apply negb_true_iff, Z.eqb_neq in P.
  apply negb_true_iff, Z.eqb_neq. intros Z0. apply P.
  rewrite Z.land_assoc, Z0. reflexivity.
Qed.

(** X8.  [writeIrf] only clears: the new [irf] has no bit the old one did
    not have, a pending condition that holds after the write held before
    it, and writing the same acknowledgment twice is the same as writing it
    once. *)
Theorem writeIrf_only_clears (mask value : Z) (s : Interpreter) :
  Z.land (irf (writeIrf mask value s)) (irf s) = irf (writeIrf mask value s)
  /\ (pending (writeIrf mask value s) = true -> pending s = true)
  /\ writeIrf mask value (writeIrf mask value s) = writeIrf mask value s.
Proof.
  unfold writeIrf. cbn [irf set_irf]. split; [|split].
  - rewrite (Z.land_comm (irf s)), <- Z.land_assoc, Z.land_diag.
    reflexivity.
  - exact (writeIrf_pending mask value s).
  - unfold set_irf. cbn. f_equal.
    rewrite <- Z.land_assoc, Z.land_diag. reflexivity.
Qed.

(** X7.  A request that is acknowledged before its task fires is dropped.
    When no other enabled request is pending, [sendInterrupt(bit)] followed
    by [writeIrf] of that bit leaves [irf] without the bit, and the
    interrupt task, when it then fires, takes no exception and changes
    nothing. *)
Theorem acknowledged_request_is_dropped (bit : Z) (s : Interpreter)
    (c : Core World) :
  Z.land (ie s) (Z.land (irf s) (Z.lnot (BIT bit))) = 0 ->
  let st1 := sendInterrupt bit (s, c) in
  let s2 := writeIrf (BIT bit) (BIT bit) (fst st1) in
  irf s2 = Z.land (irf s) (Z.lnot (BIT bit))
  /\ interrupt (s2, snd st1) = Some (s2, snd st1).
Proof.
  intros Hz. cbn zeta.
  destruct (sendInterrupt_fields bit s c) as (Hf & He & _).
  assert (Hi : irf (writeIrf (BIT bit) (BIT bit)
                      (fst (sendInterrupt bit (s, c))))
               = Z.land (irf s) (Z.lnot (BIT bit))).
  { unfold writeIrf. cbn [irf set_irf]. rewrite Hf, Z.land_diag.
    rewrite Z.land_lor_distr_l, Z.land_lnot_diag, Z.lor_0_r. reflexivity. }
  split; [exact Hi|].
  unfold interrupt. cbn [fst].
  assert (P : pending (writeIrf (BIT bit) (BIT bit)
                         (fst (sendInterrupt bit (s, c)))) = false).
  { unfold pending. rewrite Hi. unfold writeIrf at 2. cbn [ie set_irf].
    rewrite He, Hz. change (truthy 0) with false.
    rewrite andb_false_r. reflexivity. }
  rewrite P. reflexivity.
Qed.

(** The mask of the bits of IE that the CPU can write. *)
Lemma writeIe_bits (mask value : Z) (s : Interpreter) (c : Core World)
    (n : nat) :
  let writable := if negb (cpu s) then 0x003F3F7F
                  else if gbaMode c then 0x3FFF else 0x01FF3FFF in
  Z.testbit (ie (fst (writeIe mask value (s, c)))) (Z.of_nat n)
  = if Z.testbit mask (Z.of_nat n) && Z.testbit writable (Z.of_nat n)
    then Z.testbit value (Z.of_nat n) else Z.testbit (ie s) (Z.of_nat n).
Proof.
  cbn zeta. unfold writeIe.
  match goal with |- context [pending ?a] => destruct (pending a) end;
    cbn [scheduleInterrupt fst ie set_ie];
    rewrite Z.lor_spec, !Z.land_spec, Z.lnot_spec, Z.land_spec
      by apply Nat2Z.is_nonneg;
    repeat match goal with
           | |- context [Z.testbit ?a ?b] => destruct (Z.testbit a b)
           end; reflexivity.
Qed.

(** X9.  [writeIe] changes a bit of IE only where [mask] selects it and
    the CPU can write it (0x003F3F7F on the ARM9, 0x3FFF on the ARM7 in GBA
    mode, 0x01FF3FFF on the ARM7 in NDS mode); such a bit takes the bit of
    [value], every other bit keeps its value.  In particular bits 25-31
    never change on any CPU. *)
Theorem writeIe_respects_mask (mask value : Z) (s : Interpreter)
    (c : Core World) (n : nat) :
  let writable := if negb (cpu s) then 0x003F3F7F
                  else if gbaMode c then 0x3FFF else 0x01FF3FFF in
  Z.testbit (ie (fst (writeIe mask value (s, c)))) (Z.of_nat n)
  = (if Z.testbit mask (Z.of_nat n) && Z.testbit writable (Z.of_nat n)
     then Z.testbit value (Z.of_nat n) else Z.testbit (ie s) (Z.of_nat n))
  /\ ((25 <= n)%nat ->
      Z.testbit (ie (fst (writeIe mask value (s, c)))) (Z.of_nat n)
      = Z.testbit (ie s) (Z.of_nat n)).
Proof.
  cbn zeta. split; [apply writeIe_bits|].
  intros Hn. rewrite writeIe_bits. cbn zeta.
  assert (Hw : Z.testbit (if negb (cpu s) then 0x003F3F7F
                          else if gbaMode c then 0x3FFF else 0x01FF3FFF)
                 (Z.of_nat n) = false).
  { apply Z.bits_above_log2.
    - destruct (negb (cpu s)), (gbaMode c); lia.
    - destruct (negb (cpu s)), (gbaMode c); cbn; lia. }
  rewrite Hw, andb_false_r. reflexivity.
Qed.

(** [x] fits in [k] bits exactly when masking it with [k] ones gives [x]. *)
Lemma fits_land_ones (x k : Z) :
  0 <= k -> (0 <= x < 2 ^ k <-> Z.land x (Z.ones k) = x).
Proof.
  intros Hk. rewrite Z.land_ones by assumption. split.
  - intros R. apply Z.mod_small. exact R.
  - intros <-. apply Z.mod_pos_bound. apply Z.pow_pos_nonneg; lia.
Qed.

Lemma fits_lor (a b o : Z) :
  Z.land a o = a -> Z.land b o = b -> Z.land (Z.lor a b) o = Z.lor a b.
Proof. intros A B. rewrite Z.land_lor_distr_l, A, B. reflexivity. Qed.

Lemma fits_land (a b o : Z) :
  Z.land a o = a -> Z.land (Z.land a b) o = Z.land a b.
Proof.
  intros A. rewrite <- Z.land_assoc, (Z.land_comm b o), Z.land_assoc, A.
  reflexivity.
Qed.

Lemma writePostFlg_fits (value : Z) (s : Interpreter) :
  let k := if cpu s then 1 else 2 in
  Z.land (postFlg s) (Z.ones k) = postFlg s ->
  Z.land (postFlg (writePostFlg value s)) (Z.ones k)
  = postFlg (writePostFlg value s).
Proof.
  cbn zeta. unfold writePostFlg. cbn [cpu postFlg set_postFlg].
  destruct (cpu s); cbn [negb postFlg set_postFlg]; intros F.
  - apply fits_lor; [exact F|].
    rewrite <- Z.land_assoc. reflexivity.
  - apply fits_lor.
    + apply fits_land, fits_lor; [exact F|].
      rewrite <- Z.land_assoc. reflexivity.
    + rewrite <- Z.land_assoc. reflexivity.
Qed.

Lemma writePostFlg_cpu (value : Z) (s : Interpreter) :
  cpu (writePostFlg value s) = cpu s.
Proof.
  unfold writePostFlg. cbn [cpu set_postFlg]. destruct (negb (cpu s));
    reflexivity.
Qed.

(** X10.  POSTFLG never leaves its two (ARM9) or one (ARM7) low bits: if it
    is below 4 on the ARM9, or below 2 on the ARM7, as after [init], it is
    so after any sequence of [writePostFlg] calls, whatever bytes are
    written. *)
Theorem writePostFlg_stays_small (values : list Z) (s : Interpreter) :
  0 <= postFlg s < (if cpu s then 2 else 4) ->
  0 <= postFlg (writePostFlgs values s) < (if cpu s then 2 else 4).
Proof.
  assert (G : forall s0,
            Z.land (postFlg s0) (Z.ones (if cpu s0 then 1 else 2)) = postFlg s0
            -> Z.land (postFlg (writePostFlgs values s0))
                 (Z.ones (if cpu s0 then 1 else 2))
               = postFlg (writePostFlgs values s0)
               /\ cpu (writePostFlgs values s0) = cpu s0).
  { unfold writePostFlgs.
    induction values as [|v vs IH]; intros s0 F; cbn [fold_left].
    - split; [exact F | reflexivity].
    - pose proof (writePostFlg_fits v s0 F) as F1.
      rewrite <- (writePostFlg_cpu v s0) in F1.
      destruct (IH _ F1) as [A B].
      rewrite writePostFlg_cpu in A, B. split; assumption. }
  intros R.
  assert (F : Z.land (postFlg s) (Z.ones (if cpu s then 1 else 2)) = postFlg s).
  { destruct (cpu s); apply fits_land_ones; [lia | exact R | lia | exact R]. }
  destruct (G s F) as [A _].
  destruct (cpu s); apply fits_land_ones in A; try lia; exact A.
Qed.

(** X11.  [resetCycles] rebases the local counter without wrapping: a
    counter ahead of the global one keeps its lead over the new origin, a
    counter behind it is set to 0; the core is not changed. *)
Theorem resetCycles_saturates (s : Interpreter) (c : Core World) :
  0 <= globalCycles c ->
  0 <= cycles s ->
  let s' := fst (resetCycles (s, c)) in
  cycles s' = Z.max 0 (cycles s - globalCycles c)
  /\ 0 <= cycles s' <= cycles s
  /\ snd (resetCycles (s, c)) = c.
Proof.
  intros Hg Hc. cbn zeta. unfold resetCycles. cbn [fst snd cycles set_cycles].
  repeat split; lia.
Qed.

End InterruptRegisters.

(** ** A pending interrupt always has its task queued *)

Section Armed.

Context {World : Type} {X : Collaborators World}.

(** The scheduler puts the task it is given in the queue. *)
Hypothesis schedule_queues :
  forall t c, In (task t) (map task (tasks (core_schedule t c))).

Lemma rearm (s : Interpreter) (c : Core World) :
  armed (if pending s then scheduleInterrupt (s, c) else (s, c)).
Proof.
  unfold armed. destruct (pending s) eqn:P; cbn [scheduleInterrupt fst snd].
  - intros _. apply (schedule_queues (mkTask (interruptTask (cpu s)) _)).
  - intros P'. rewrite P in P'. discriminate.
Qed.

(** X5.  Whenever the pending condition (IME set, an enabled request in
    IRF, IRQs enabled in CPSR) holds after [sendInterrupt], [writeIme],
    [writeIe] or [setCpsr], the call has put the CPU's interrupt task in the
    queue; and [writeIrf] cannot make the condition hold, so it keeps the
    property.  No pending interrupt is left without a delivery task. *)
Theorem pending_interrupt_is_queued (s : Interpreter) (c : Core World) :
  (forall bit, armed (sendInterrupt bit (s, c)))
  /\ (forall value, armed (writeIme value (s, c)))
  /\ (forall mask value, armed (writeIe mask value (s, c)))
  /\ (forall value save, armed (setCpsr value save (s, c)))
  /\ (forall mask value, armed (s, c) -> armed (writeIrf mask value s, c)).
Proof.
  split; [|split; [|split; [|split]]].
  - intros bit. unfold sendInterrupt.
    set (s1 := set_irf (Z.lor (irf s) (BIT bit)) s).
    destruct (truthy (Z.land (ie s1) (irf s1))) eqn:E.
    + destruct (truthy (ime s1) && negb (truthy (Z.land (cpsr s1) (BIT 7))))
        eqn:G.
      * unfold armed. cbn [scheduleInterrupt fst snd]. intros _.
        apply (schedule_queues (mkTask (interruptTask (cpu s1)) _)).
      * assert (P : pending s1 = false).
        { unfold pending. rewrite E, andb_true_r. exact G. }
        destruct (truthy (ime s1) || cpu s1); unfold armed; cbn [fst snd];
          intros P'; (change (pending s1 = true) in P');
          rewrite P in P'; discriminate.
    + unfold armed. cbn [fst snd]. unfold pending. rewrite E.
      rewrite andb_false_r. discriminate.
  - intros value. unfold writeIme. apply rearm.
  - intros mask value. unfold writeIe. apply rearm.
  - intros value save. unfold setCpsr.
    match goal with
    | |- context [let '(a, b) := ?t in _] => destruct t as [s1 c1]
    end.
    apply rearm.
  - intros mask value A P. cbn [fst snd] in *.
    apply A. apply (writeIrf_pending mask value s). exact P.
Qed.

End Armed.

Lemma insertTask_In (t : Task) (l : list Task) :
  In (task t) (map task (Demo.insertTask t l)).
Proof.
  induction l as [|h r IH]; cbn [Demo.insertTask].
  - left. reflexivity.
  - destruct (task_cycles t <? task_cycles h); cbn [map In]; auto.
Qed.

Lemma pending_interrupt_is_queued_witness :
  (forall t (c : Core Demo.World),
     In (task t) (map task (tasks (core_schedule t c))))
  /\ pending (fst (writeIme 1 (set_irf 1 (set_ime 0 Demo.arm9Ready),
                               Demo.core0 false 0))) = true
  /\ In (interruptTask false)
       (map task (tasks (snd (writeIme 1 (set_irf 1 (set_ime 0 Demo.arm9Ready),
                                          Demo.core0 false 0))))).
Proof.
  assert (Hs : forall t (c : Core Demo.World),
             In (task t) (map task (tasks (core_schedule t c)))).
  { intros t c. cbn [core_schedule Demo.collaborators Demo.schedule tasks].
    apply (insertTask_In (mkTask (task t) (globalCycles c + task_cycles t))). }
  assert (P : pending (fst (writeIme 1 (set_irf 1 (set_ime 0 Demo.arm9Ready),
                                        Demo.core0 false 0))) = true)
    by reflexivity.
  split; [exact Hs|]. split; [exact P|].
  exact (proj1 (proj2 (pending_interrupt_is_queued Hs
                         (set_irf 1 (set_ime 0 Demo.arm9Ready))
                         (Demo.core0 false 0))) 1 P).
Defined.

Lemma sendInterrupt_quiet_cases_witness :
  Z.land (ie Demo.arm9Ready) (Z.lor (irf Demo.arm9Ready) (BIT 3)) = 0
  /\ sendInterrupt 3 (Demo.arm9Ready, Demo.core0 false 0)
     = (set_irf 8 Demo.arm9Ready, Demo.core0 false 0)
  /\ Z.land (ie Demo.arm9Asleep) (Z.lor (irf Demo.arm9Asleep) (BIT 0)) <> 0
  /\ halted (fst (sendInterrupt 0 (set_ime 1 Demo.arm9Asleep,
                                   Demo.core0 false 0))) = 0.
Proof.
  assert (H0 : Z.land (ie Demo.arm9Ready)
                 (Z.lor (irf Demo.arm9Ready) (BIT 3)) = 0) by reflexivity.
  assert (H1 : Z.land (ie (set_ime 1 Demo.arm9Asleep))
                 (Z.lor (irf (set_ime 1 Demo.arm9Asleep)) (BIT 0)) <> 0)
    by (vm_compute; discriminate).
  assert (H2 : ime (set_ime 1 Demo.arm9Asleep) <> 0)
    by (vm_compute; discriminate).
  assert (H3 : Z.testbit (cpsr (set_ime 1 Demo.arm9Asleep)) 7 = true)
    by reflexivity.
  split; [exact H0|]. split.
  - exact (proj1 (sendInterrupt_quiet_cases 3 Demo.arm9Ready
                    (Demo.core0 false 0)) H0).
  - split; [exact H1|].
    rewrite (proj2 (sendInterrupt_quiet_cases 0 (set_ime 1 Demo.arm9Asleep)
                      (Demo.core0 false 0)) H1 H2 H3).
    reflexivity.
Defined.

Lemma writeIrf_only_clears_witness :
  pending (writeIrf 0xFF 2 (set_irf 3 Demo.arm9Ready)) = true
  /\ pending (set_irf 3 Demo.arm9Ready) = true.
Proof.
  assert (P : pending (writeIrf 0xFF 2 (set_irf 3 Demo.arm9Ready)) = true)
    by reflexivity.
  split; [exact P|].
  exact (proj1 (proj2 (writeIrf_only_clears 0xFF 2 (set_irf 3 Demo.arm9Ready)))
           P).
Defined.

Lemma acknowledged_request_is_dropped_witness :
  Z.land (ie Demo.arm9Ready) (Z.land (irf Demo.arm9Ready) (Z.lnot (BIT 0))) = 0
  /\ interrupt
       (writeIrf (BIT 0) (BIT 0)
          (fst (sendInterrupt 0 (Demo.arm9Ready, Demo.core0 false 0))),
        snd (sendInterrupt 0 (Demo.arm9Ready, Demo.core0 false 0)))
     = Some
         (writeIrf (BIT 0) (BIT 0)
            (fst (sendInterrupt 0 (Demo.arm9Ready, Demo.core0 false 0))),
          snd (sendInterrupt 0 (Demo.arm9Ready, Demo.core0 false 0))).
Proof.
  assert (H0 : Z.land (ie Demo.arm9Ready)
                 (Z.land (irf Demo.arm9Ready) (Z.lnot (BIT 0))) = 0)
    by reflexivity.
  split; [exact H0|].
  exact (proj2 (acknowledged_request_is_dropped 0 Demo.arm9Ready
                  (Demo.core0 false 0) H0)).
Defined.

Lemma writeIe_respects_mask_witness :
  (25 <= 31)%nat
  /\ Z.testbit (ie (fst (writeIe 0xFFFFFFFF 0xFFFFFFFF
                           (Demo.arm7Asleep, Demo.core0 false 0))))
       (Z.of_nat 31)
     = Z.testbit (ie Demo.arm7Asleep) (Z.of_nat 31).
Proof.
  assert (H0 : (25 <= 31)%nat) by lia.
  split; [exact H0|].
  exact (proj2 (writeIe_respects_mask 0xFFFFFFFF 0xFFFFFFFF Demo.arm7Asleep
                  (Demo.core0 false 0) 31) H0).
Defined.

Lemma writePostFlg_stays_small_witness :
  0 <= postFlg (construct false false) < 4
  /\ 0 <= postFlg (writePostFlgs [0xFF; 0; 0xFE; 1] (construct false false))
     < 4.
Proof.
  assert (H0 : 0 <= postFlg (construct false false) < 4) by (cbn; lia).
  split; [exact H0|].
  exact (writePostFlg_stays_small [0xFF; 0; 0xFE; 1] (construct false false)
           H0).
Defined.

Lemma resetCycles_saturates_witness :
  0 <= globalCycles (Demo.core0 false 0)
  /\ 0 <= cycles (set_cycles 40 Demo.arm9Ready)
  /\ cycles (fst (resetCycles (set_cycles 40 Demo.arm9Ready,
                               Demo.core0 false 0))) = 0.
Proof.
  assert (H0 : 0 <= globalCycles (Demo.core0 false 0)) by (cbn; lia).
  assert (H1 : 0 <= cycles (set_cycles 40 Demo.arm9Ready)) by (cbn; lia).
  split; [exact H0|]. split; [exact H1|].
  exact (proj1 (resetCycles_saturates (set_cycles 40 Demo.arm9Ready)
                  (Demo.core0 false 0) H0 H1)).
Defined.

Lemma banked_register_round_trip_witness :
  bound Demo.arm9Ready
  /\ modeOfCode (Z.land (cpsr Demo.arm9Ready) 0x1F) = Some System
  /\ modeOfCode (Z.land 0x92 0x1F) = Some IRQ
  /\ (8 <= 13 <= 14)%nat
  /\ readReg 13
       (fst (setCpsr (cpsr Demo.arm9Ready) false
               (writeReg 13 0x03003F80
                  (fst (setCpsr 0x92 true
                          (Demo.arm9Ready, Demo.core0 false 0))),
                Demo.core0 false 0)))
     = readReg 13 Demo.arm9Ready.
Proof.
  assert (B : bound Demo.arm9Ready) by apply ready_bound.
  assert (E0 : modeOfCode (Z.land (cpsr Demo.arm9Ready) 0x1F) = Some System)
    by reflexivity.
  assert (E1 : modeOfCode (Z.land 0x92 0x1F) = Some IRQ) by reflexivity.
  assert (Hi : (8 <= 13 <= 14)%nat) by lia.
  repeat (split; [assumption|]).
  exact (proj2 (banked_register_round_trip 0x92 0x03003F80 true false
                  Demo.arm9Ready (Demo.core0 false 0) (Demo.core0 false 0)
                  System IRQ 13 B E0 E1 Hi)).
Defined.

Lemma exception_entry_witness :
  bound Demo.arm9Ready
  /\ nativeEntry Demo.arm9Ready (Demo.core0 false 0)
  /\ 0 <= 0x08 < 32
  /\ exists s' w,
       exception 0x08 (Demo.arm9Ready, Demo.core0 false 0)
       = Some (3, (s', set_world w (Demo.core0 false 0)))
       /\ Z.land (cpsr s') 0x1F = 0x13
       /\ readReg 15 s' = 0xFFFF000C.
Proof.
  assert (B : bound Demo.arm9Ready) by apply ready_bound.
  assert (N : nativeEntry Demo.arm9Ready (Demo.core0 false 0)) by reflexivity.
  assert (V : 0 <= 0x08 < 32) by lia.
  repeat (split; [assumption|]).
  destruct (exception_entry 0x08 Demo.arm9Ready (Demo.core0 false 0) B N V)
    as (m & q & s' & w & Hm & _ & He & _ & Hc & _ & _ & _ & _ & _ & _ & _ & Hpc).
  injection Hm as <-.
  exists s', w. repeat split; assumption.
Defined.

(** ** Boot and refill leave the scheduler alone *)

Section BootFrame.

Context {World : Type} {X : Collaborators World}.

(** Entering a defined mode with IRQs disabled does not touch the core. *)
Lemma setCpsr_masked_defined (value : Z) (save : bool) (m : Mode)
    (s : Interpreter) (c : Core World) :
  modeOfCode (Z.land value 0x1F) = Some m ->
  Z.testbit value 7 = true ->
  snd (setCpsr value save (s, c)) = c.
Proof.
  intros E H7. rewrite (setCpsr_masked_core value save (s, c) H7).
  cbn [fst]. destruct (Z.land value 31 =? Z.land (cpsr s) 31); [reflexivity|].
  apply (swapBanks_table value m s c E).
Qed.

Lemma flushPipeline_core (s : Interpreter) (c : Core World) :
  exists w, snd (flushPipeline (s, c)) = set_world w c.
Proof. rewrite flushPipeline_eq. cbn zeta. eexists. reflexivity. Qed.

(** X15.  [init] and [directBoot] never schedule the interrupt task, even
    when a request is pending and enabled at the time of the call: the
    core they return is the old one with only the bus state advanced by
    their reads.  Queue, cycle counter, mode flag and log are unchanged. *)
Theorem boot_leaves_scheduler (s : Interpreter) (c : Core World) :
  (exists w, snd (init (s, c)) = set_world w c)
  /\ (exists w, snd (directBoot (s, c)) = set_world w c).
Proof.
  split.
  - unfold init.
    pose proof (setCpsr_masked_defined 0xD3 false Supervisor s c eq_refl
                  eq_refl) as K.
    destruct (setCpsr 0xD3 false (s, c)) as [s1 c1]. cbn [snd] in K. subst c1.
    match goal with
    | |- context [flushPipeline (?a, ?b)] =>
        destruct (flushPipeline_core a b) as [w Hw];
        destruct (flushPipeline (a, b)) as [s3 c3]
    end.
    cbn [snd] in *. exists w. exact Hw.
  - unfold directBoot.
    assert (G : forall e s1 w1,
              exists w,
                snd (let '(s2, c2) :=
                       setCpsr 0xDF false (s1, set_world w1 c) in
                     flushPipeline
                       (store (registersUsr 15) e
                          (store (registersUsr 14) e
                             (store (registersUsr 12) e s2)), c2))
                = set_world w c).
    { intros e s1 w1.
      pose proof (setCpsr_masked_defined 0xDF false System s1
                    (set_world w1 c) eq_refl eq_refl) as K.
      destruct (setCpsr 0xDF false (s1, set_world w1 c)) as [s2 c2].
      cbn [snd] in K. subst c2.
      match goal with
      | |- context [flushPipeline (?a, ?b)] =>
          destruct (flushPipeline_core a b) as [w Hw];
          destruct (flushPipeline (a, b)) as [s3 c3]
      end.
      cbn [snd] in *. exists w. exact Hw. }
    destruct (cpu s); cbn [negb].
    + destruct (memory_read32 false 0x27FFE34 (world c)) as [e w]. apply G.
    + destruct (memory_read32 false 0x27FFE24 (world c)) as [e w]. apply G.
Qed.

(** The cells [directBoot] has seeded with stack pointers. *)
Lemma directBoot_cells (s : Interpreter) (c : Core World) :
  bound s ->
  let s' := fst (directBoot (s, c)) in
  cells s' (registersUsr 13) = (if cpu s then 0x0380FD80 else 0x03002F7C)
  /\ cells s' (registersIrq 0) = (if cpu s then 0x0380FF80 else 0x03003F80)
  /\ cells s' (registersSvc 0) = (if cpu s then 0x0380FFC0 else 0x03003FC0).
Proof.
  intros B. cbn zeta. unfold directBoot.
  assert (G : forall e s1 c1 (r : Cell),
            bound s1 ->
            Cell_eqb (registersUsr 15) r = false ->
            Cell_eqb (registersUsr 14) r = false ->
            Cell_eqb (registersUsr 12) r = false ->
            cells (fst (let '(s2, c2) := setCpsr 0xDF false (s1, c1) in
                        flushPipeline
                          (store (registersUsr 15) e
                             (store (registersUsr 14) e
                                (store (registersUsr 12) e s2)), c2))) r
            = cells s1 r).
  { intros e s1 c1 r B0 N15 N14 N12.
    pose proof (setCpsr_bound 0xDF false s1 c1 B0) as B1.
    pose proof (setCpsr_cells 0xDF false s1 c1 r) as K.
    destruct (setCpsr 0xDF false (s1, c1)) as [s2 c2]. cbn [fst andb] in *.
    destruct B1 as [Hu _]. pose proof (Hu 15%nat ltac:(lia)) as H15.
    match goal with
    | |- context [flushPipeline (?a, ?b)] =>
        destruct (flushPipeline_frame a b) as [p Hp];
        destruct (flushPipeline (a, b)) as [s3 c3]
    end.
    cbn [fst] in Hp. subst s3. cbn [fst]. unfold writeReg.
    cbn [registers store set_pipeline set_cells]. rewrite H15.
    cbn [cells store set_pipeline set_cells].
    rewrite N15, N14, N12. exact K. }
  destruct (cpu s); cbn [negb].
  - destruct (memory_read32 false 0x27FFE34 (world c)) as [e w].
    repeat split; (rewrite G; [reflexivity | exact B | reflexivity ..]).
  - destruct (memory_read32 false 0x27FFE24 (world c)) as [e w].
    repeat split; (rewrite G; [reflexivity | exact B | reflexivity ..]).
Qed.

Lemma directBoot_cpsr (s : Interpreter) (c : Core World) :
  cpsr (fst (directBoot (s, c))) = 0xDF.
Proof.
  unfold directBoot.
  assert (G : forall e s1 c1,
            cpsr (fst (let '(s2, c2) := setCpsr 0xDF false (s1, c1) in
                       flushPipeline
                         (store (registersUsr 15) e
                            (store (registersUsr 14) e
                               (store (registersUsr 12) e s2)), c2))) = 0xDF).
  { intros e s1 c1.
    pose proof (setCpsr_cpsr 0xDF false (s1, c1)) as C1.
    destruct (setCpsr 0xDF false (s1, c1)) as [s2 c2]. cbn [fst] in C1.
    match goal with
    | |- context [flushPipeline (?a, ?b)] =>
        destruct (flushPipeline_frame a b) as [p Hp];
        destruct (flushPipeline (a, b)) as [s3 c3]
    end.
    cbn [fst] in Hp. subst s3. exact C1. }
  destruct (cpu s); cbn [negb].
  - destruct (memory_read32 false 0x27FFE34 (world c)) as [e w]. apply G.
  - destruct (memory_read32 false 0x27FFE24 (world c)) as [e w]. apply G.
Qed.

(** X16.  After [directBoot] each mode finds its own stack pointer: R13
    reads 0x03002F7C (ARM9) or 0x0380FD80 (ARM7) in the System mode the CPU
    is left in, and after a later [setCpsr] into IRQ mode it reads
    0x03003F80 or 0x0380FF80, into Supervisor mode 0x03003FC0 or
    0x0380FFC0. *)
Theorem directBoot_stack_pointers (value : Z) (save : bool) (s : Interpreter)
    (c c' : Core World) :
  bound s ->
  let s' := fst (directBoot (s, c)) in
  let s'' := fst (setCpsr value save (s', c')) in
  readReg 13 s' = (if cpu s then 0x0380FD80 else 0x03002F7C)
  /\ (Z.land value 0x1F = 0x12 ->
      readReg 13 s'' = (if cpu s then 0x0380FF80 else 0x03003F80))
  /\ (Z.land value 0x1F = 0x13 ->
      readReg 13 s'' = (if cpu s then 0x0380FFC0 else 0x03003FC0)).
Proof.
  intros B. cbn zeta.
  pose proof (directBoot_bound s c B) as B'.
  destruct (directBoot_cells s c B) as (Hu & Hi & Hs).
  pose proof (directBoot_cpsr s c) as Hc.
  set (s' := fst (directBoot (s, c))) in *.
  assert (G : forall m, modeOfCode (Z.land value 0x1F) = Some m ->
            readReg 13 (fst (setCpsr value save (s', c')))
            = cells s' (tableCell m 13)).
  { intros m E.
    pose proof (setCpsr_bound value save s' c' B') as [_ Bm].
    rewrite setCpsr_cpsr in Bm. destruct (Bm m E) as [Hb _].
    unfold readReg. rewrite (Hb 13%nat ltac:(lia)).
    apply (setCpsr_register_cell value save s' c' m m 13 B' E). }
  split; [|split].
  - destruct B' as [_ Bm]. rewrite Hc in Bm.
    destruct (Bm System eq_refl) as [Hb _].
    unfold readReg. rewrite (Hb 13%nat ltac:(lia)). exact Hu.
  - intros E. rewrite (G IRQ) by (rewrite E; reflexivity). exact Hi.
  - intros E. rewrite (G Supervisor) by (rewrite E; reflexivity). exact Hs.
Qed.

(** X17.  [flushPipeline] leaves the program counter aligned to the
    instruction width (even in THUMB state, a multiple of 4 in ARM state),
    and changes nothing of the CPU but the program counter's cell and the
    two pipeline slots, and nothing of the core but the bus state. *)
Theorem flushPipeline_aligns (s : Interpreter) (c : Core World) :
  let s' := fst (flushPipeline (s, c)) in
  readReg 15 s' mod (if Z.testbit (cpsr s) 5 then 2 else 4) = 0
  /\ (exists p pc, s' = set_pipeline p (writeReg 15 pc s))
  /\ (exists w, snd (flushPipeline (s, c)) = set_world w c).
Proof.
  cbn zeta. split; [|split].
  - destruct (flushPipeline_frame s c) as [p ->]. rewrite readReg_refilled.
    unfold u32, wrap.
    destruct (Z.testbit (cpsr s) 5).
    + rewrite (land_lnot_ones _ 1) by lia.
      rewrite Z.mod_mod_divide by (exists (2 ^ 31); reflexivity).
      change (2 ^ 1) with 2.
      pose proof (Z.div_mod (readReg 15 s) 2 ltac:(lia)) as D.
      replace (readReg 15 s - readReg 15 s mod 2 + 2)
        with ((readReg 15 s / 2 + 1) * 2) by lia.
      apply Z_mod_mult.
    + rewrite (land_lnot_ones _ 2) by lia.
      rewrite Z.mod_mod_divide by (exists (2 ^ 30); reflexivity).
      change (2 ^ 2) with 4.
      pose proof (Z.div_mod (readReg 15 s) 4 ltac:(lia)) as D.
      replace (readReg 15 s - readReg 15 s mod 4 + 4)
        with ((readReg 15 s / 4 + 1) * 4) by lia.
      apply Z_mod_mult.
  - destruct (flushPipeline_frame s c) as [p Hp]. eexists. eexists. exact Hp.
  - apply flushPipeline_core.
Qed.

End BootFrame.

(** ** The first opcode after a refill *)

Section Fetch.

Context {World : Type} {X : Collaborators World} {H : Handlers World}
  {D : Decoder World}.

Lemma u32_back (t w : Z) : u32 (u32 (t + w) - w) = u32 t.
Proof.
  unfold u32, wrap. rewrite Zminus_mod_idemp_l. f_equal. lia.
Qed.

Lemma u32_forward (t w : Z) : u32 (u32 (t + w) + w) = u32 (t + 2 * w).
Proof.
  unfold u32, wrap. rewrite Zplus_mod_idemp_l. f_equal. lia.
Qed.

(** X14.  [runOpcode] right after [flushPipeline] executes the instruction
    at the branch target: the opcode it dispatches is the one the bus
    returned for the aligned target address, R15 is then two instructions
    ahead of it (target + 8 in ARM state, target + 4 in THUMB state), the
    pipeline holds the next two instructions, and three reads were made, in
    address order, with the CPU's own id.  No other register cell
    changes before the handler runs. *)
Theorem runOpcode_after_flush (s : Interpreter) (c : Core World) :
  let thumb := Z.testbit (cpsr s) 5 in
  let width := if thumb then 2 else 4 in
  let read := if thumb then memory_read16 else memory_read32 in
  let target := Z.land (readReg 15 s) (Z.lnot (width - 1)) in
  let r0 := read (cpu s) (u32 target) (world c) in
  let r1 := read (cpu s) (u32 (target + width)) (snd r0) in
  let r2 := read (cpu s) (u32 (target + 2 * width)) (snd r1) in
  exists s3,
    runOpcode (flushPipeline (s, c))
    = dispatch (fst r0) (s3, set_world (snd r2) c)
    /\ readReg 15 s3 = u32 (target + 2 * width)
    /\ pipeline s3 = (fst r1, fst r2)
    /\ cpsr s3 = cpsr s
    /\ registers s3 = registers s
    /\ forall q, q <> registers s 15 -> cells s3 q = cells s q.
Proof.
  cbn zeta. rewrite flushPipeline_eq. cbn zeta.
  unfold runOpcode.
  cbn [pipeline set_pipeline fst snd cpsr cpu world set_world].
  rewrite truthy_land_BIT by lia.
  unfold readReg, writeReg.
  cbn [registers cells cpsr cpu pipeline store set_cells set_pipeline].
  rewrite !Cell_eqb_refl.
  destruct (Z.testbit (cpsr s) 5) eqn:T;
    change (2 - 1) with 1; change (4 - 1) with 3;
    rewrite u32_back, u32_forward.
  - destruct (memory_read16 (cpu s) (u32 (Z.land (cells s (registers s 15))
                                            (Z.lnot 1))) (world c))
      as [v0 w0]. cbn [fst snd].
    destruct (memory_read16 (cpu s) _ w0) as [v1 w1]. cbn [fst snd].
    destruct (memory_read16 (cpu s) _ w1) as [v2 w2]. cbn [fst snd].
    match goal with
    | |- exists s3, ?L = _ /\ _ =>
        match L with context [(?st, set_world _ _)] => exists st end
    end.
    split.
    + unfold dispatch. cbn [fst cpsr set_pipeline store set_cells].
      rewrite truthy_land_BIT, T by lia. reflexivity.
    + cbn [registers cells cpsr pipeline store set_cells set_pipeline].
      rewrite Cell_eqb_refl. repeat split.
      intros q Nq. rewrite !Cell_eqb_neq by congruence. reflexivity.
  - destruct (memory_read32 (cpu s) (u32 (Z.land (cells s (registers s 15))
                                            (Z.lnot 3))) (world c))
      as [v0 w0]. cbn [fst snd].
    destruct (memory_read32 (cpu s) _ w0) as [v1 w1]. cbn [fst snd].
    destruct (memory_read32 (cpu s) _ w1) as [v2 w2]. cbn [fst snd].
    match goal with
    | |- exists s3, ?L = _ /\ _ =>
        match L with context [(?st, set_world _ _)] => exists st end
    end.
    split.
    + unfold dispatch. cbn [fst cpsr set_pipeline store set_cells].
      rewrite truthy_land_BIT, T by lia. reflexivity.
    + cbn [registers cells cpsr pipeline store set_cells set_pipeline].
      rewrite Cell_eqb_refl. repeat split.
      intros q Nq. rewrite !Cell_eqb_neq by congruence. reflexivity.
Qed.

End Fetch.

(** ** Progress of the NDS drive loop *)

Section Progress.

Context {World : Type}.
Variable W : Z.
Variable runOpcode : bool -> Nds World -> Z * Nds World.
Variable maxCost : Z.

Hypothesis W_wide : 32 <= W.

(** An opcode costs between 1 and [maxCost] cycles. *)
Hypothesis cost_bounds :
  forall who n, 1 <= fst (runOpcode who n) <= maxCost.

(** An opcode writes neither the global counter nor the local ones. *)
Hypothesis runOpcode_counters :
  forall who n,
    globalCycles (core (snd (runOpcode who n))) = globalCycles (core n)
    /\ cycles (arm9 (snd (runOpcode who n))) = cycles (arm9 n)
    /\ cycles (arm7 (snd (runOpcode who n))) = cycles (arm7 n).

(** An opcode of the ARM7 does not wake a halted ARM9. *)
Hypothesis arm7_keeps_arm9_asleep :
  forall n, truthy (halted (arm9 n)) = true ->
            truthy (halted (arm9 (snd (runOpcode true n)))) = true.

(** X12.  One iteration of the inner loop of [runNdsFrame] moves the
    global counter strictly forward, provided the counters are below 2^32
    and far enough from it for one opcode not to wrap, every opcode costs at
    least one cycle and leaves the counters alone, and the ARM7's opcode does
    not wake a halted ARM9 (whose counter would be stale). *)
Theorem innerBody_advances (n : Nds World) :
  counted 32 n ->
  0 <= globalCycles (core n) ->
  globalCycles (core n) + 2 * maxCost < 2 ^ 32 ->
  globalCycles (core n) < globalCycles (core (innerBody W runOpcode n)).
Proof.
  intros [[C9 C9'] [C7 C7']] Hg Hmax.
  assert (HW : 2 ^ 32 <= 2 ^ W) by (apply Z.pow_le_mono_r; lia).
  set (g := globalCycles (core n)) in *.
  (* after the ARM9's turn *)
  assert (A : let a := stepArm9 W runOpcode n in
              globalCycles (core a) = g
              /\ 0 <= cycles (arm7 a) < 2 ^ 32
              /\ cycles (arm7 a) = cycles (arm7 n)
              /\ 0 <= cycles (arm9 a) < 2 ^ 32
              /\ (truthy (halted (arm9 a)) = true \/ g < cycles (arm9 a))).
  { cbn zeta. unfold stepArm9.
    destruct (truthy (halted (arm9 n))) eqn:H9; cbn [negb andb].
    - repeat split; auto.
    - destruct (Z.leb_spec (cycles (arm9 n)) (globalCycles (core n))) as [L|L].
      + pose proof (cost_bounds false n) as Kc.
        destruct (runOpcode_counters false n) as (Kg & K9 & K7).
        destruct (runOpcode false n) as [cost n1]. cbn [fst snd] in *.
        cbn [core arm9 arm7 cycles set_cycles]. rewrite Kg, K7.
        unfold wrap. rewrite Z.mod_small by (fold g; lia). fold g.
        repeat split; try lia.
      + repeat split; auto. }
  cbn zeta in A. destruct A as (Ag & A7 & A7e & A9 & A9h).
  (* after the ARM7's turn *)
  assert (B : let b := stepArm7 W runOpcode (stepArm9 W runOpcode n) in
              (truthy (halted (arm9 b)) = true
               \/ g < cycles (arm9 b) < 2 ^ 32)
              /\ (truthy (halted (arm7 b)) = true
                  \/ g < cycles (arm7 b) < 2 ^ 32)).
  { cbn zeta. set (a := stepArm9 W runOpcode n) in *. unfold stepArm7.
    destruct (truthy (halted (arm7 a))) eqn:H7; cbn [negb andb].
    - split; [|left; exact H7]. destruct A9h; [left | right]; auto; lia.
    - destruct (Z.leb_spec (cycles (arm7 a)) (globalCycles (core a))) as [L|L].
      + pose proof (cost_bounds true a) as Kc.
        destruct (runOpcode_counters true a) as (Kg & K9 & K7).
        pose proof (arm7_keeps_arm9_asleep a) as Kh.
        destruct (runOpcode true a) as [cost n1]. cbn [fst snd] in *.
        cbn [core arm9 arm7 cycles set_cycles]. rewrite Kg, K9, Ag.
        rewrite Z.shiftl_mul_pow2 by lia. change (2 ^ 1) with 2.
        unfold wrap. rewrite Z.mod_small by lia.
        split; [|right; lia].
        destruct A9h as [Hh|Hc]; [left; auto | right; lia].
      + split; [|right; lia]. destruct A9h; [left | right]; auto; lia. }
  cbn zeta in B. destruct B as [B9 B7].
  unfold innerBody. cbn [core globalCycles set_globalCycles].
  set (b := stepArm7 W runOpcode (stepArm9 W runOpcode n)) in *.
  assert (S9 : g < nextStamp (arm9 b)).
  { unfold nextStamp. destruct B9 as [Hh|Hc].
    - rewrite Hh. change (u32 (-1)) with (2 ^ 32 - 1).
      pose proof (cost_bounds false n). lia.
    - destruct (truthy (halted (arm9 b))).
      + change (u32 (-1)) with (2 ^ 32 - 1).
        pose proof (cost_bounds false n). lia.
      + unfold u32, wrap. rewrite Z.mod_small by lia. lia. }
  assert (S7 : g < nextStamp (arm7 b)).
  { unfold nextStamp. destruct B7 as [Hh|Hc].
    - rewrite Hh. change (u32 (-1)) with (2 ^ 32 - 1).
      pose proof (cost_bounds false n). lia.
    - destruct (truthy (halted (arm7 b))).
      + change (u32 (-1)) with (2 ^ 32 - 1).
        pose proof (cost_bounds false n). lia.
      + unfold u32, wrap. rewrite Z.mod_small by lia. lia. }
  lia.
Qed.

End Progress.

Lemma innerBody_advances_witness :
  32 <= 32
  /\ counted 32 Demo.nds0
  /\ 0 <= globalCycles (core Demo.nds0)
  /\ globalCycles (core Demo.nds0) + 2 * 1 < 2 ^ 32
  /\ globalCycles (core Demo.nds0)
     < globalCycles (core (innerBody 32 Demo.run1 Demo.nds0)).
Proof.
  assert (Hw : 32 <= 32) by lia.
  assert (Hc : forall who (n : Nds Demo.World),
             1 <= fst (Demo.run1 who n) <= 1) by (intros; cbn; lia).
  assert (Hk : forall who (n : Nds Demo.World),
             globalCycles (core (snd (Demo.run1 who n))) = globalCycles (core n)
             /\ cycles (arm9 (snd (Demo.run1 who n))) = cycles (arm9 n)
             /\ cycles (arm7 (snd (Demo.run1 who n))) = cycles (arm7 n)).
  { intros who n. unfold Demo.run1. cbn [snd].
    destruct (Z.odd (globalCycles (core n))); repeat split. }
  assert (Hh : forall n : Nds Demo.World,
             truthy (halted (arm9 n)) = true ->
             truthy (halted (arm9 (snd (Demo.run1 true n)))) = true).
  { intros n Hn. unfold Demo.run1. cbn [snd].
    destruct (Z.odd (globalCycles (core n))); [reflexivity | exact Hn]. }
  assert (C0 : counted 32 Demo.nds0) by (unfold counted; cbn; lia).
  assert (G0 : 0 <= globalCycles (core Demo.nds0)) by (cbn; lia).
  assert (M0 : globalCycles (core Demo.nds0) + 2 * 1 < 2 ^ 32) by (cbn; lia).
  repeat (split; [assumption|]).
  exact (innerBody_advances 32 Demo.run1 1 Hw Hc Hk Hh Demo.nds0 C0 G0 M0).
Defined.

(** ** The GBA drive loop *)

Section GbaPacing.

Context {World : Type}.
Variable W : Z.
Variable runOpcode : bool -> Nds World -> Z * Nds World.

(** X13.  In [runGbaFrame] the ARM7 runs in lockstep with the global
    counter: before the inner loop the global counter is at least the ARM7's
    counter, and at the end of every iteration the two are equal, whatever
    the opcode does; an iteration only starts with the ARM7 not halted. *)
Theorem runGbaFrame_lockstep (n m : Nds World) :
  cycles (arm7 (gbaEnter n)) <= globalCycles (core (gbaEnter n))
  /\ (gbaReach W runOpcode (gbaEnter n) m ->
      cycles (arm7 m) = globalCycles (core m)
      /\ exists k, m = gbaBody W runOpcode k
                   /\ truthy (halted (arm7 k)) = false).
Proof.
  split.
  - unfold gbaEnter.
    destruct (Z.ltb_spec (globalCycles (core n)) (cycles (arm7 n)));
      cbn [arm7 core globalCycles set_globalCycles]; lia.
  - intros R.
    assert (G : forall k, gbaTest k = true ->
              cycles (arm7 (gbaBody W runOpcode k))
              = globalCycles (core (gbaBody W runOpcode k))
              /\ truthy (halted (arm7 k)) = false).
    { intros k T. unfold gbaBody. destruct (runOpcode true k) as [cost k1].
      split; [reflexivity|].
      unfold gbaTest in T. apply andb_true_iff in T. destruct T as [T _].
      apply negb_true_iff in T. exact T. }
    destruct R as [T | k R T].
    + destruct (G _ T) as [E Hh]. split; [exact E|]. eauto.
    + destruct (G _ T) as [E Hh]. split; [exact E|]. eauto.
Qed.

End GbaPacing.

Lemma runGbaFrame_lockstep_witness :
  gbaReach 32 Demo.run1 (gbaEnter Demo.nds0)
    (gbaBody 32 Demo.run1 (gbaEnter Demo.nds0))
  /\ cycles (arm7 (gbaBody 32 Demo.run1 (gbaEnter Demo.nds0))) = 102
  /\ globalCycles (core (gbaBody 32 Demo.run1 (gbaEnter Demo.nds0))) = 102.
Proof.
  assert (R : gbaReach 32 Demo.run1 (gbaEnter Demo.nds0)
                (gbaBody 32 Demo.run1 (gbaEnter Demo.nds0)))
    by (apply gba_first; reflexivity).
  split; [exact R|].
  pose proof (proj1 (proj2 (runGbaFrame_lockstep 32 Demo.run1 Demo.nds0 _) R))
    as E.
  split; [reflexivity|]. rewrite <- E. reflexivity.
Defined.

(** ** Register reads of the 2D engine *)



(** X19.  [readBgCnt] of a background inside the array returns its 16-bit
    BGCNT in two bytes, low byte first, and zero for bytes 2 and 3; for a
    background index outside the array it returns nothing. *)
Theorem readBgCnt_bytes (bg : nat) (v : Z) (g : Gpu2D) :
  nth_error (bgCnt g) bg = Some v ->
  0 <= v < 2 ^ 16 ->
  exists b0 b1,
    readBgCnt bg 0 g = Some b0 /\ readBgCnt bg 1 g = Some b1
    /\ 0 <= b0 < 256 /\ 0 <= b1 < 256
    /\ v = b0 + 2 ^ 8 * b1
    /\ readBgCnt bg 2 g = Some 0 /\ readBgCnt bg 3 g = Some 0
    /\ forall bg', (length (bgCnt g) <= bg')%nat ->
         forall byte, readBgCnt bg' byte g = None.
Proof.
  intros E R. unfold readBgCnt, wrap. rewrite E.
  cbn [Z.leb Z.ltb Z.compare andb Z.mul].
  do 2 eexists. do 2 (split; [reflexivity|]).
  rewrite !Z.shiftr_div_pow2 by lia. change (2 ^ 0) with 1.
  rewrite Z.div_1_r. cbn [Z.mul Pos.mul].
  change (2 ^ 8) with 256 in *. change (2 ^ 16) with 65536 in *.
  change (2 ^ 24) with 16777216.
  repeat split; try (apply Z.mod_pos_bound; lia).
  - pose proof (Z.div_mod v 256 ltac:(lia)).
    assert (v / 256 / 256 = 0).
    { rewrite Z.div_div by lia. apply Z.div_small. lia. }
    pose proof (Z.div_mod (v / 256) 256 ltac:(lia)). lia.
  - rewrite Z.div_small by lia. reflexivity.
  - rewrite Z.div_small by lia. reflexivity.
  - intros bg' Hl byte. apply nth_error_None in Hl. rewrite Hl. reflexivity.
Qed.

Lemma readBgCnt_bytes_witness :
  nth_error (bgCnt Demo.gpu0) 1 = Some 0xABCD
  /\ 0 <= 0xABCD < 2 ^ 16
  /\ readBgCnt 1 1 Demo.gpu0 = Some 0xAB
  /\ readBgCnt 4 0 Demo.gpu0 = None.
Proof.
  assert (E : nth_error (bgCnt Demo.gpu0) 1 = Some 0xABCD) by reflexivity.
  assert (R : 0 <= 0xABCD < 2 ^ 16) by lia.
  split; [exact E|]. split; [exact R|].
  destruct (readBgCnt_bytes 1 0xABCD Demo.gpu0 E R)
    as (b0 & b1 & _ & H1 & _ & _ & _ & _ & _ & Ho).
  split; [reflexivity | exact (Ho 4%nat ltac:(cbn; lia) 0)].
Defined.

Lemma directBoot_stack_pointers_witness :
  bound (construct true false)
  /\ Z.land 0x92 0x1F = 0x12
  /\ readReg 13 (fst (setCpsr 0x92 true
                        (fst (directBoot (construct true false,
                                          Demo.core0 false 0)),
                         Demo.core0 false 0)))
     = 0x0380FF80.
Proof.
  assert (B : bound (construct true false)) by apply construct_bound.
  assert (E : Z.land 0x92 0x1F = 0x12) by reflexivity.
  split; [exact B|]. split; [exact E|].
  exact (proj1 (proj2 (directBoot_stack_pointers 0x92 true
                         (construct true false) (Demo.core0 false 0)
                         (Demo.core0 false 0) B)) E).
Defined.
